(** * sockeye/transformer.py: encoder/decoder blocks, process blocks,
      feed-forward layer and autoregressive bias

    The Python module builds MXNet symbol graphs.  The embedding below keeps
    that view: a [Symbol] is a node of the graph, a block's [__call__] is a
    function that returns the node it builds (or raises), and shapes are
    obtained by shape inference over the graph.  The numpy computation of
    [AutoRegressiveBias.get_bias] is embedded over binary64 floats, and the
    array it hands to the engine is rounded to binary32. *)

From Stdlib Require Import ZArith List String Ascii Bool Lia Floats.
Import ListNotations.
Open Scope Z_scope.
Set Warnings "-register-all".

(** ** Python results: a value or a raised exception *)

Module Py.

(** The exceptions the module raises itself ([assert], [raise ValueError]),
    the [AttributeError] of calling a method on [None], and the errors numpy
    raises on bad dimensions. *)
Inductive exn : Type :=
| AssertionError (msg : string)
| ValueError (msg : string)
| AttributeError (msg : string)
| TypeError (msg : string).

Inductive result (A : Type) : Type :=
| Ok (a : A)
| Raise (e : exn).
Arguments Ok {A} a.
Arguments Raise {A} e.

Definition bind {A B} (m : result A) (k : A -> result B) : result B :=
  match m with
  | Ok a => k a
  | Raise e => Raise e
  end.

Definition map {A B} (f : A -> B) (m : result A) : result B :=
  bind m (fun a => Ok (f a)).

(** [assert cond, msg] *)
Definition assert (cond : bool) (msg : string) : result unit :=
  if cond then Ok tt else Raise (AssertionError msg).

(** [c in s] for a one-character string [c]. *)
Fixpoint str_in (c : ascii) (s : string) : bool :=
  match s with
  | EmptyString => false
  | String x rest => Ascii.eqb c x || str_in c rest
  end.

(** Truthiness of a string: [not s] holds of the empty string only. *)
Definition str_not (s : string) : bool :=
  match s with
  | EmptyString => true
  | String _ _ => false
  end.

(** ["%s..." % x] with one string argument in front, and in the back. *)
Definition fmt_prefix (x rest : string) : string := (x ++ rest)%string.
Definition fmt_suffix (text x : string) : string := (text ++ x)%string.

End Py.

Import Py.

Notation "'do' x <- m ; k" := (Py.bind m (fun x => k))
  (at level 10, x name, m at level 100, k at level 200).

(** ** External layers ([sockeye/layers.py]) *)

Module layers.

(** Modelled from the spec: [layers.LayerNormalization] is not part of the
    file; the block only constructs it with [num_hidden] and a prefix and
    calls [normalize] on a rank-2 tensor. *)
Record LayerNormalization : Type := {
  ln_num_hidden : Z;
  ln_prefix : string
}.

(** Modelled from the spec: [layers.MultiHeadSelfAttention], constructed
    with these keyword arguments and called on [(inputs, lengths, length)]
    with an optional [bias]. *)
Record MultiHeadSelfAttention : Type := {
  sa_depth_att : Z;
  sa_heads : Z;
  sa_depth_out : Z;
  sa_dropout : float;
  sa_prefix : string
}.

(** Modelled from the spec: [layers.MultiHeadAttention], called on
    [(queries, queries_max_length, memory, memory_lengths,
    memory_max_length)]. *)
Record MultiHeadAttention : Type := {
  ma_depth_att : Z;
  ma_heads : Z;
  ma_depth_out : Z;
  ma_dropout : float;
  ma_prefix : string
}.

(** Modelled from the spec: [LayerNormalization.normalize] is missing; it
    normalizes each row of a rank-2 tensor over the last axis and returns a
    rank-2 tensor of the same shape. *)
Definition normalize_shape (ln : LayerNormalization) (inputs : list Z)
    : option (list Z) :=
  match inputs with
  | [n; h] => Some [n; h]
  | _ => None
  end.

(** Modelled from the spec: [MultiHeadSelfAttention.__call__] is missing; it
    is same-shape self-attention on a [(batch, length, depth)] tensor. *)
Definition self_attention_shape (att : MultiHeadSelfAttention)
    (inputs : list Z) : option (list Z) :=
  match inputs with
  | [b; l; d] => Some [b; l; d]
  | _ => None
  end.

(** Modelled from the spec: [MultiHeadAttention.__call__] is missing; it is
    cross-attention that preserves the shape of the queries. *)
Definition attention_shape (att : MultiHeadAttention)
    (queries : list Z) : option (list Z) :=
  match queries with
  | [b; l; d] => Some [b; l; d]
  | _ => None
  end.

End layers.

(** ** Symbol graphs ([mx.sym]) *)

Module sym.

(** One constructor per operator the module applies.  [_plus] receives
    [prev] as the code passes it, an optional symbol.  The three last
    constructors are the calls into [layers]. *)
Inductive Symbol : Type :=
| Var (name : string)
| _plus (lhs : Symbol) (rhs : option Symbol) (name : string)
| reshape (data : Symbol) (shape : list Z) (name : option string)
| Dropout (data : Symbol) (p : float) (name : option string)
| FullyConnected (data : Symbol) (num_hidden : Z) (weight bias : Symbol)
| Activation (data : Symbol) (act_type : string)
| BlockGrad (data : Symbol)
| Custom (length : Z) (name : string) (op_type : string)
| normalize (ln : layers.LayerNormalization) (data : Symbol)
| self_attention (att : layers.MultiHeadSelfAttention)
    (inputs lengths : Symbol) (length : Z) (bias : option Symbol)
| enc_attention (att : layers.MultiHeadAttention)
    (queries : Symbol) (queries_max_length : Z)
    (memory memory_lengths : Symbol) (memory_max_length : Z).

(** Number of operator nodes of a graph. *)
Fixpoint size (s : Symbol) : nat :=
  match s with
  | Var _ => 1
  | _plus a b _ => S (size a + match b with Some b' => size b' | None => 0 end)
  | reshape d _ _ => S (size d)
  | Dropout d _ _ => S (size d)
  | FullyConnected d _ w b => S (size d + size w + size b)
  | Activation d _ => S (size d)
  | BlockGrad d => S (size d)
  | Custom _ _ _ => 1
  | normalize _ d => S (size d)
  | self_attention _ i l _ b =>
      S (size i + size l + match b with Some b' => size b' | None => 0 end)
  | enc_attention _ q _ m ml _ => S (size q + size m + size ml)
  end.

(** The graph with the [bias] argument of every self-attention call
    removed. *)
Fixpoint drop_self_attention_bias (s : Symbol) : Symbol :=
  match s with
  | Var n => Var n
  | _plus a b n =>
      _plus (drop_self_attention_bias a)
            (match b with
             | Some b' => Some (drop_self_attention_bias b')
             | None => None
             end) n
  | reshape d sh n => reshape (drop_self_attention_bias d) sh n
  | Dropout d p n => Dropout (drop_self_attention_bias d) p n
  | FullyConnected d nh w b =>
      FullyConnected (drop_self_attention_bias d) nh
                     (drop_self_attention_bias w) (drop_self_attention_bias b)
  | Activation d a => Activation (drop_self_attention_bias d) a
  | BlockGrad d => BlockGrad (drop_self_attention_bias d)
  | Custom l n o => Custom l n o
  | normalize ln d => normalize ln (drop_self_attention_bias d)
  | self_attention att i l len _ =>
      self_attention att (drop_self_attention_bias i)
                     (drop_self_attention_bias l) len None
  | enc_attention att q ql m ml mlen =>
      enc_attention att (drop_self_attention_bias q) ql
                    (drop_self_attention_bias m)
                    (drop_self_attention_bias ml) mlen
  end.

End sym.

Import sym.

(** ** The blocks of [transformer.py] *)

(** [TransformerConfig]; [conv_config] is stored by the constructor and read
    by no block, it is kept as an optional name. *)
Record TransformerConfig : Type := {
  model_size : Z;
  attention_heads : Z;
  feed_forward_num_hidden : Z;
  num_layers : Z;
  vocab_size : Z;
  dropout_attention : float;
  dropout_relu : float;
  dropout_prepost : float;
  weight_tying : bool;
  positional_embedding_type : string;
  preprocess_sequence : string;
  postprocess_sequence : string;
  max_seq_len_source : Z;
  max_seq_len_target : Z;
  conv_config : option string
}.

Module TransformerProcessBlock.

Record t : Type := {
  sequence : string;
  num_hidden : Z;
  dropout : float;
  prefix : string;
  layer_norm : option layers.LayerNormalization
}.

Definition __init__ (sequence : string) (num_hidden : Z) (dropout : float)
    (prefix : string) : t :=
  {| sequence := sequence;
     num_hidden := num_hidden;
     dropout := dropout;
     prefix := prefix;
     layer_norm :=
       if str_in "n" sequence
       then Some {| layers.ln_num_hidden := num_hidden;
                    layers.ln_prefix := fmt_prefix prefix "norm" |}
       else None |}.

Definition _reshape_and_normalize (self : t) (data : Symbol) (length : Z)
    : result Symbol :=
  let data := reshape data [-3; num_hidden self] None in
  do data <- match layer_norm self with
             | Some ln => Ok (normalize ln data)
             | None =>
                 Raise (AttributeError
                          "'NoneType' object has no attribute 'normalize'")
             end;
  let data := reshape data [-4; -1; length; num_hidden self]
                      (Some (fmt_prefix (prefix self) "normalized")) in
  Ok data.

(** The body of the [for] loop, for one [step].  An operator call is the
    node it builds: the engine's check of operator parameters (a dropout
    rate within [[0, 1]], dimensions that fit its integers) is not part of
    the embedding, and the properties that say when a call returns are
    stated for parameters in range. *)
Definition step_body (self : t) (prev : option Symbol) (length : Z)
    (step : ascii) (data : Symbol) : result Symbol :=
  if Ascii.eqb step "r" then
    Ok (_plus data prev (fmt_prefix (prefix self) "residual"))
  else if Ascii.eqb step "n" then
    _reshape_and_normalize self data length
  else if Ascii.eqb step "d" then
    if PrimFloat.ltb 0 (dropout self)
    then Ok (Dropout data (dropout self)
                     (Some (fmt_prefix (prefix self) "dropout")))
    else Ok data
  else
    Raise (ValueError (fmt_suffix "Unknown step in sequence: "
                                  (String step EmptyString))).

(** [for step in self.sequence: ...] over the remaining [steps]. *)
Fixpoint for_steps (self : t) (prev : option Symbol) (length : Z)
    (steps : string) (data : Symbol) : result Symbol :=
  match steps with
  | EmptyString => Ok data
  | String step rest =>
      do data <- step_body self prev length step data;
      for_steps self prev length rest data
  end.

Definition __call__ (self : t) (data : Symbol) (prev : option Symbol)
    (length : Z) : result Symbol :=
  if str_not (sequence self) then Ok data
  else
    do _ <- match prev with
            | None =>
                assert (negb (str_in "r" (sequence self)))
                  "Residual connection not allowed if no previous value given."
            | Some _ => Ok tt
            end;
    for_steps self prev length (sequence self) data.

End TransformerProcessBlock.

Module TransformerFeedForward.

Record t : Type := {
  num_hidden : Z;
  num_model : Z;
  dropout : float;
  prefix : string;
  w_i2h : Symbol;
  b_i2h : Symbol;
  w_h2o : Symbol;
  b_h2o : Symbol
}.

Definition __init__ (num_hidden num_model : Z) (dropout : float)
    (prefix : string) : t :=
  {| num_hidden := num_hidden;
     num_model := num_model;
     dropout := dropout;
     prefix := prefix;
     w_i2h := Var (fmt_prefix prefix "i2h_weight");
     b_i2h := Var (fmt_prefix prefix "i2h_bias");
     w_h2o := Var (fmt_prefix prefix "h2o_weight");
     b_h2o := Var (fmt_prefix prefix "h2o_bias") |}.

(** As in the process block, an operator call is the node it builds; the
    engine's check of [num_hidden] and of the dropout rate is not part of
    the embedding. *)
Definition __call__ (self : t) (x : Symbol) (length : Z) : Symbol :=
  let x := reshape x [-3; -1] None in
  let h := FullyConnected x (num_hidden self) (w_i2h self) (b_i2h self) in
  let h := Activation h "relu" in
  let h := if PrimFloat.ltb 0 (dropout self)
           then Dropout h (dropout self) None else h in
  let y := FullyConnected h (num_model self) (w_h2o self) (b_h2o self) in
  let y := reshape y [-1; length; num_model self] None in
  y.

End TransformerFeedForward.

Module TransformerEncoderBlock.

Record t : Type := {
  pre_self_attention : TransformerProcessBlock.t;
  self_attention : layers.MultiHeadSelfAttention;
  post_self_attention : TransformerProcessBlock.t;
  pre_ff : TransformerProcessBlock.t;
  ff : TransformerFeedForward.t;
  post_ff : TransformerProcessBlock.t
}.

Definition __init__ (config : TransformerConfig) (prefix : string) : t :=
  {| pre_self_attention :=
       TransformerProcessBlock.__init__ (preprocess_sequence config)
         (model_size config) (dropout_prepost config)
         (fmt_prefix prefix "att_self_pre_");
     self_attention :=
       {| layers.sa_depth_att := model_size config;
          layers.sa_heads := attention_heads config;
          layers.sa_depth_out := model_size config;
          layers.sa_dropout := dropout_attention config;
          layers.sa_prefix := fmt_prefix prefix "att_self_" |};
     post_self_attention :=
       TransformerProcessBlock.__init__ (postprocess_sequence config)
         (model_size config) (dropout_prepost config)
         (fmt_prefix prefix "att_self_post_");
     pre_ff :=
       TransformerProcessBlock.__init__ (preprocess_sequence config)
         (model_size config) (dropout_prepost config)
         (fmt_prefix prefix "ff_pre_");
     ff :=
       TransformerFeedForward.__init__ (feed_forward_num_hidden config)
         (model_size config) (dropout_relu config)
         (fmt_prefix prefix "ff_");
     post_ff :=
       TransformerProcessBlock.__init__ (postprocess_sequence config)
         (model_size config) (dropout_prepost config)
         (fmt_prefix prefix "ff_post_") |}.

Definition __call__ (self : t) (data data_length : Symbol) (length : Z)
    : result Symbol :=
  (* self-attention *)
  do pre <- TransformerProcessBlock.__call__
              (pre_self_attention self) data None length;
  let data_self_att :=
    sym.self_attention (self_attention self) pre data_length length None in
  do data <- TransformerProcessBlock.__call__
               (post_self_attention self) data_self_att (Some data) length;
  (* feed-forward *)
  do pre <- TransformerProcessBlock.__call__ (pre_ff self) data None length;
  let data_ff := TransformerFeedForward.__call__ (ff self) pre length in
  do data <- TransformerProcessBlock.__call__
               (post_ff self) data_ff (Some data) length;
  Ok data.

End TransformerEncoderBlock.

Module TransformerDecoderBlock.

Record t : Type := {
  pre_self_attention : TransformerProcessBlock.t;
  self_attention : layers.MultiHeadSelfAttention;
  post_self_attention : TransformerProcessBlock.t;
  pre_enc_attention : TransformerProcessBlock.t;
  enc_attention : layers.MultiHeadAttention;
  post_enc_attention : TransformerProcessBlock.t;
  pre_ff : TransformerProcessBlock.t;
  ff : TransformerFeedForward.t;
  post_ff : TransformerProcessBlock.t
}.

Definition __init__ (config : TransformerConfig) (prefix : string) : t :=
  {| pre_self_attention :=
       TransformerProcessBlock.__init__ (preprocess_sequence config)
         (model_size config) (dropout_prepost config)
         (fmt_prefix prefix "att_self_pre_");
     self_attention :=
       {| layers.sa_depth_att := model_size config;
          layers.sa_heads := attention_heads config;
          layers.sa_depth_out := model_size config;
          layers.sa_dropout := dropout_attention config;
          layers.sa_prefix := fmt_prefix prefix "att_self_" |};
     post_self_attention :=
       TransformerProcessBlock.__init__ (postprocess_sequence config)
         (model_size config) (dropout_prepost config)
         (fmt_prefix prefix "att_self_post_");
     pre_enc_attention :=
       TransformerProcessBlock.__init__ (preprocess_sequence config)
         (model_size config) (dropout_prepost config)
         (fmt_prefix prefix "att_enc_pre_");
     enc_attention :=
       {| layers.ma_depth_att := model_size config;
          layers.ma_heads := attention_heads config;
          layers.ma_depth_out := model_size config;
          layers.ma_dropout := dropout_attention config;
          layers.ma_prefix := fmt_prefix prefix "att_enc_" |};
     post_enc_attention :=
       TransformerProcessBlock.__init__ (postprocess_sequence config)
         (model_size config) (dropout_prepost config)
         (fmt_prefix prefix "att_enc_post_");
     pre_ff :=
       TransformerProcessBlock.__init__ (preprocess_sequence config)
         (model_size config) (dropout_prepost config)
         (fmt_prefix prefix "ff_pre_");
     ff :=
       TransformerFeedForward.__init__ (feed_forward_num_hidden config)
         (model_size config) (dropout_relu config)
         (fmt_prefix prefix "ff_");
     post_ff :=
       TransformerProcessBlock.__init__ (postprocess_sequence config)
         (model_size config) (dropout_prepost config)
         (fmt_prefix prefix "ff_post_") |}.

Definition __call__ (self : t) (target target_lengths : Symbol)
    (target_max_length : Z) (target_bias : Symbol)
    (source source_lengths : Symbol) (source_max_length : Z)
    : result Symbol :=
  (* self-attention *)
  do pre <- TransformerProcessBlock.__call__
              (pre_self_attention self) target None target_max_length;
  let target_self_att :=
    sym.self_attention (self_attention self) pre target_lengths
                       target_max_length (Some target_bias) in
  do target <- TransformerProcessBlock.__call__
                 (post_self_attention self) target_self_att (Some target)
                 target_max_length;
  (* encoder attention *)
  do pre <- TransformerProcessBlock.__call__
              (pre_enc_attention self) target None target_max_length;
  let target_enc_att :=
    sym.enc_attention (enc_attention self) pre target_max_length
                      source source_lengths source_max_length in
  do target <- TransformerProcessBlock.__call__
                 (post_enc_attention self) target_enc_att (Some target)
                 target_max_length;
  (* feed-forward *)
  do pre <- TransformerProcessBlock.__call__
              (pre_ff self) target None target_max_length;
  let target_ff :=
    TransformerFeedForward.__call__ (ff self) pre target_max_length in
  do target <- TransformerProcessBlock.__call__
                 (post_ff self) target_ff (Some target) target_max_length;
  Ok target.

End TransformerDecoderBlock.

Definition get_autoregressive_bias (max_length : Z) (name : string) : Symbol :=
  BlockGrad (Custom max_length name "auto_regressive_bias").

(** ** numpy arrays ([np]) over binary64 *)

Module np.

(** An array is its shape and its elements in row-major (C) order. *)
Record ndarray : Type := {
  shape : list Z;
  data : list float
}.

Definition prod (dims : list Z) : Z := fold_right Z.mul 1 dims.

(** [f] applied to every element together with its flat index, from [i]. *)
Fixpoint mapi_from {A B : Type} (f : Z -> A -> B) (i : Z) (l : list A)
    : list B :=
  match l with
  | [] => []
  | x :: rest => f i x :: mapi_from f (i + 1) rest
  end.

(** [np.ones(shape)]: float64 ones; a negative dimension is refused. *)
Definition ones (shp : list Z) : result ndarray :=
  if forallb (fun d => 0 <=? d) shp
  then Ok {| shape := shp; data := repeat 1%float (Z.to_nat (prod shp)) |}
  else Raise (ValueError "negative dimensions are not allowed").

(** [np.triu(m, k)]: an element of the last two axes, at row [i] and column
    [j], is kept when [j >= i + k] and replaced by zero below that diagonal
    ([where(tri(N, M, k-1), 0, m)]).  A rank-1 argument is broadcast along
    the rows of an [M x M] result. *)
Definition triu (m : ndarray) (k : Z) : result ndarray :=
  match rev (shape m) with
  | [] => Raise (TypeError "tri() missing required argument 'N'")
  | [M] =>
      Ok {| shape := [M; M];
            data := mapi_from
                      (fun idx _ =>
                         if (idx / M) + k <=? idx mod M
                         then nth (Z.to_nat (idx mod M)) (data m) 0%float
                         else 0%float)
                      0 (repeat 0%float (Z.to_nat (M * M))) |}
  | M :: N :: _ =>
      Ok {| shape := shape m;
            data := mapi_from
                      (fun idx v =>
                         if ((idx / M) mod N) + k <=? idx mod M
                         then v else 0%float)
                      0 (data m) |}
  end.

(** [np.reshape(a, newshape)] for a tuple of explicit dimensions, of which
    one may be [-1]. *)
Definition reshape (a : ndarray) (newshape : list Z) : result ndarray :=
  let total := Z.of_nat (List.length (data a)) in
  let known := prod (filter (fun d => negb (d =? -1)) newshape) in
  let unknown := List.length (filter (fun d => d =? -1) newshape) in
  let bad := Raise (ValueError "cannot reshape array") in
  if existsb (fun d => d <? -1) newshape then bad
  else match unknown with
       | O => if known =? total
              then Ok {| shape := newshape; data := data a |} else bad
       | S O =>
           if (negb (known =? 0)) && (total mod known =? 0)
           then Ok {| shape := List.map (fun d => if d =? -1
                                                  then total / known else d)
                                        newshape;
                      data := data a |}
           else bad
       | _ => Raise (ValueError "can only specify one unknown dimension")
       end.

(** [c * a] for a Python float [c]. *)
Definition scalar_mul (c : float) (a : ndarray) : ndarray :=
  {| shape := shape a; data := List.map (PrimFloat.mul c) (data a) |}.

(** Flat offset of a full index tuple; a negative index counts from the
    end, an index out of range is refused ([None]: [IndexError]). *)
Fixpoint ravel (dims idx : list Z) (offset : Z) : option Z :=
  match dims, idx with
  | [], [] => Some offset
  | d :: dims', i :: idx' =>
      let i' := if i <? 0 then i + d else i in
      if (0 <=? i') && (i' <? d)
      then ravel dims' idx' (offset * d + i')
      else None
  | _, _ => None
  end.

(** [a[idx]] for a full index tuple. *)
Definition item (a : ndarray) (idx : list Z) : option float :=
  match ravel (shape a) idx 0 with
  | Some off => nth_error (data a) (Z.to_nat off)
  | None => None
  end.

End np.

(** ** The autoregressive bias operator *)

Module AutoRegressiveBias.

(** The binary32 value nearest to a binary64 value (ties to even, overflow
    to infinity), written as the binary64 value it denotes. *)
Definition to_float32 (x : float) : float :=
  SF2Prim (match Prim2SF x with
           | S754_finite s m e => SpecFloat.binary_round 24 128 s m e
           | other => other
           end).

(** [mx.nd.array(bias)] with no [dtype]: the engine stores a numpy array as
    float32, the type [infer_type] declares for the operator's output.  The
    shape is kept and every element is rounded to binary32. *)
Definition nd_array (a : np.ndarray) : np.ndarray :=
  {| np.shape := np.shape a;
     np.data := List.map to_float32 (np.data a) |}.

Definition get_bias (length : Z) : result np.ndarray :=
  (* matrix with lower triangle and main diagonal set to 0, upper triangle
     set to 1 *)
  do all_ones <- np.ones [length; length];
  do upper_triangle <- np.triu all_ones 1;
  (* (1, length, length) *)
  do reshaped <- np.reshape upper_triangle [1; length; length];
  let bias := np.scalar_mul (-99999999)%float reshaped in
  Ok (nd_array bias).

End AutoRegressiveBias.

Module AutoRegressiveBiasProp.

(** The constructor receives the length as text and keeps [int(length)]. *)
Record t : Type := { length : Z }.

Definition list_arguments (self : t) : list string := [].

Definition list_outputs (self : t) : list string := ["output"%string].

Definition infer_shape (self : t) (in_shape : list (list Z))
    : list (list Z) * list (list Z) * list (list Z) :=
  ([], [[1; length self; length self]], []).

Definition create_operator (self : t) : result np.ndarray :=
  AutoRegressiveBias.get_bias (length self).

End AutoRegressiveBiasProp.

(** ** Shape inference over symbol graphs *)

Module shapes.

Definition Shape : Type := list Z.

Definition size_of (s : Shape) : Z := fold_right Z.mul 1 s.

Definition shape_eqb (a b : Shape) : bool :=
  if list_eq_dec Z.eq_dec a b then true else false.

(** The walk of [mx.sym.reshape] over its target shape: [0] copies the next
    input dimension, [-1] marks the dimension to infer ([None] below), [-2]
    copies all remaining input dimensions, [-3] merges the next two input
    dimensions, [-4] splits the next input dimension into the two
    dimensions that follow it in the target (one of which may be [-1]), and
    any other value is the new dimension itself. *)
Fixpoint reshape_walk (dshape : Shape) (target : list Z)
    : option (list (option Z)) :=
  match target with
  | [] => Some []
  | d :: rest =>
      if d =? 0 then
        match dshape with
        | s :: dshape' => option_map (cons (Some s)) (reshape_walk dshape' rest)
        | [] => None
        end
      else if d =? -1 then
        option_map (cons None) (reshape_walk (tl dshape) rest)
      else if d =? -2 then
        option_map (app (List.map Some dshape)) (reshape_walk [] rest)
      else if d =? -3 then
        match dshape with
        | s1 :: s2 :: dshape' =>
            option_map (cons (Some (s1 * s2))) (reshape_walk dshape' rest)
        | _ => None
        end
      else if d =? -4 then
        match dshape, rest with
        | d0 :: dshape', d1 :: d2 :: rest' =>
            if (d1 =? -1) && (d2 =? -1) then None
            else
              let d1' := if d1 =? -1 then d0 ÷ d2 else d1 in
              let d2' := if d2 =? -1 then d0 ÷ d1' else d2 in
              if d1' * d2' =? d0
              then option_map (fun t => Some d1' :: Some d2' :: t)
                              (reshape_walk dshape' rest')
              else None
        | _, _ => None
        end
      else
        option_map (cons (Some d)) (reshape_walk (tl dshape) rest)
  end.

Definition known_size (tmp : list (option Z)) : Z :=
  fold_right (fun d acc => match d with Some d' => d' * acc | None => acc end)
             1 tmp.

Definition count_inferred (tmp : list (option Z)) : nat :=
  List.length (filter (fun d => match d with None => true | Some _ => false end)
                      tmp).

(** Output shape of [mx.sym.reshape]: at most one dimension is inferred, and
    the element count is that of the input. *)
Definition infer_reshape_shape (dshape : Shape) (target : list Z)
    : option Shape :=
  match reshape_walk dshape target with
  | None => None
  | Some tmp =>
      if (1 <? count_inferred tmp)%nat then None
      else
        let oshape :=
          List.map (fun d => match d with
                             | Some d' => d'
                             | None => size_of dshape ÷ known_size tmp
                             end) tmp in
        if size_of oshape =? size_of dshape then Some oshape else None
  end.

(** Shape of the node a graph denotes, given the shapes of its variables:
    elementwise operators keep the shape of their argument, [_plus] needs
    two arguments of one shape, [FullyConnected] maps [(n, ...)] to
    [(n, num_hidden)], the custom operator has the shape its
    [CustomOpProp] declares, and the calls into [layers] have the shapes
    given there. *)
Fixpoint infer_shape (env : string -> option Shape) (s : Symbol)
    : option Shape :=
  match s with
  | Var n => env n
  | _plus a b _ =>
      match infer_shape env a, b with
      | Some sa, Some b' =>
          match infer_shape env b' with
          | Some sb => if shape_eqb sa sb then Some sa else None
          | None => None
          end
      | _, _ => None
      end
  | sym.reshape d target _ =>
      match infer_shape env d with
      | Some sd => infer_reshape_shape sd target
      | None => None
      end
  | Dropout d _ _ => infer_shape env d
  | Activation d _ => infer_shape env d
  | BlockGrad d => infer_shape env d
  | FullyConnected d nh _ _ =>
      match infer_shape env d with
      | Some (n :: _) => Some [n; nh]
      | _ => None
      end
  | Custom len _ op_type =>
      if String.eqb op_type "auto_regressive_bias"
      then match AutoRegressiveBiasProp.infer_shape
                   {| AutoRegressiveBiasProp.length := len |} [] with
           | (_, [out], _) => Some out
           | _ => None
           end
      else None
  | normalize ln d =>
      match infer_shape env d with
      | Some sd => layers.normalize_shape ln sd
      | None => None
      end
  | sym.self_attention att inputs _ _ _ =>
      match infer_shape env inputs with
      | Some si => layers.self_attention_shape att si
      | None => None
      end
  | sym.enc_attention att queries _ _ _ _ =>
      match infer_shape env queries with
      | Some sq => layers.attention_shape att sq
      | None => None
      end
  end.

End shapes.

(** * Properties *)

(** ** Vocabulary of the properties *)

Module FF := TransformerFeedForward.
Module Enc := TransformerEncoderBlock.
Module Dec := TransformerDecoderBlock.

Module PB := TransformerProcessBlock.

(** The steps the loop knows. *)
Definition known_step (c : ascii) : bool :=
  Ascii.eqb c "r" || Ascii.eqb c "n" || Ascii.eqb c "d".

(** The first character of a sequence that is not a known step. *)
Fixpoint first_unknown_step (s : string) : option ascii :=
  match s with
  | EmptyString => None
  | String c rest => if known_step c then first_unknown_step rest else Some c
  end.

Fixpoint all_known (s : string) : bool :=
  match s with
  | EmptyString => true
  | String c rest => known_step c && all_known rest
  end.

Definition residual_msg : string :=
  "Residual connection not allowed if no previous value given.".

Definition unknown_step_error (c : ascii) : exn :=
  ValueError ("Unknown step in sequence: " ++ String c EmptyString).

Definition is_None {A : Type} (o : option A) : bool :=
  match o with
  | None => true
  | Some _ => false
  end.

(** The previous value is given and has shape [shp]. *)
Definition prev_fits (env : string -> option shapes.Shape)
    (shp : shapes.Shape) (prev : option Symbol) : Prop :=
  exists p, prev = Some p /\ shapes.infer_shape env p = Some shp.

(** Shapes of the variables of the examples. *)
Definition example_env (n : string) : option shapes.Shape :=
  if String.eqb n "data" then Some [2; 5; 4]
  else if String.eqb n "source" then Some [2; 7; 4]
  else None.

(** A preprocess sequence is usable when its steps are known and none is
    [r] (the pre blocks are called with no previous value); a postprocess
    sequence when its steps are known. *)
Definition valid_preprocess (s : string) : bool :=
  all_known s && negb (str_in "r" s).

Definition valid_postprocess (s : string) : bool := all_known s.

Definition example_config : TransformerConfig :=
  {| model_size := 4;
     attention_heads := 2;
     feed_forward_num_hidden := 16;
     num_layers := 1;
     vocab_size := 10;
     dropout_attention := 0.5%float;
     dropout_relu := 0.5%float;
     dropout_prepost := 0.5%float;
     weight_tying := false;
     positional_embedding_type := "fixed";
     preprocess_sequence := "n";
     postprocess_sequence := "dr";
     max_seq_len_source := 7;
     max_seq_len_target := 5;
     conv_config := None |}.

Abbreviation drop := drop_self_attention_bias.

(** [a[idx] == v], with the equality of floats ([-0.0 == 0.0]). *)
Definition entry_equals (a : np.ndarray) (idx : list Z) (v : float) : Prop :=
  exists e, np.item a idx = Some e /\ PrimFloat.eqb e v = true.

Definition large_negative : float := (-99999999)%float.

(** Row [i], column [j] of the upper-triangle mask times the constant. *)
Definition bias_entry (i j : Z) : float :=
  PrimFloat.mul large_negative (if i + 1 <=? j then 1%float else 0%float).

(** Hyperparameters in the range the engine accepts: a dropout rate in
    [[0, 1)], a dimension from 1 up to the largest 32-bit integer. *)
Definition rate_in_range (p : float) : bool :=
  PrimFloat.leb 0 p && PrimFloat.ltb p 1.

Definition dim_in_range (d : Z) : bool := (0 <? d) && (d <? 2147483648).

Definition config_in_range (config : TransformerConfig) : bool :=
  rate_in_range (dropout_attention config)
  && rate_in_range (dropout_relu config)
  && rate_in_range (dropout_prepost config)
  && dim_in_range (model_size config)
  && dim_in_range (attention_heads config)
  && dim_in_range (feed_forward_num_hidden config).

(** A sequence with its [d] steps deleted. *)
Fixpoint without_dropout_steps (s : string) : string :=
  match s with
  | EmptyString => EmptyString
  | String c rest =>
      if Ascii.eqb c "d" then without_dropout_steps rest
      else String c (without_dropout_steps rest)
  end.

(** The graph with the memory arguments of every encoder-attention call
    replaced by fixed placeholders. *)
Fixpoint drop_memory (s : Symbol) : Symbol :=
  match s with
  | Var n => Var n
  | _plus a b n =>
      _plus (drop_memory a) (option_map drop_memory b) n
  | sym.reshape d sh n => sym.reshape (drop_memory d) sh n
  | Dropout d p n => Dropout (drop_memory d) p n
  | FullyConnected d nh w b =>
      FullyConnected (drop_memory d) nh (drop_memory w) (drop_memory b)
  | Activation d a => Activation (drop_memory d) a
  | BlockGrad d => BlockGrad (drop_memory d)
  | Custom l n o => Custom l n o
  | normalize ln d => normalize ln (drop_memory d)
  | sym.self_attention att i l len b =>
      sym.self_attention att (drop_memory i) (drop_memory l) len
                         (option_map drop_memory b)
  | sym.enc_attention att q ql _ _ _ =>
      sym.enc_attention att (drop_memory q) ql (Var "") (Var "") 0
  end.

(** A configuration whose preprocess sequence has an [r] step. *)
Definition residual_first_config : TransformerConfig :=
  {| model_size := 4;
     attention_heads := 2;
     feed_forward_num_hidden := 16;
     num_layers := 1;
     vocab_size := 10;
     dropout_attention := 0.5%float;
     dropout_relu := 0.5%float;
     dropout_prepost := 0.5%float;
     weight_tying := false;
     positional_embedding_type := "fixed";
     preprocess_sequence := "nr";
     postprocess_sequence := "d";
     max_seq_len_source := 7;
     max_seq_len_target := 5;
     conv_config := None |}.

(** A configuration with all dropout rates at 0 and sequences that still
    name [d] steps. *)
Definition inference_config : TransformerConfig :=
  {| model_size := 4;
     attention_heads := 2;
     feed_forward_num_hidden := 16;
     num_layers := 1;
     vocab_size := 10;
     dropout_attention := 0%float;
     dropout_relu := 0%float;
     dropout_prepost := 0%float;
     weight_tying := false;
     positional_embedding_type := "fixed";
     preprocess_sequence := "nd";
     postprocess_sequence := "drd";
     max_seq_len_source := 7;
     max_seq_len_target := 5;
     conv_config := None |}.

(** Whether a graph has a [Dropout] operator built by these blocks (the
    attention layers are opaque calls). *)
Fixpoint has_dropout (s : Symbol) : bool :=
  match s with
  | Var _ => false
  | _plus a b _ =>
      has_dropout a || match b with Some b' => has_dropout b' | None => false end
  | sym.reshape d _ _ => has_dropout d
  | Dropout _ _ _ => true
  | FullyConnected d _ w b => has_dropout d || has_dropout w || has_dropout b
  | Activation d _ => has_dropout d
  | BlockGrad d => has_dropout d
  | Custom _ _ _ => false
  | normalize _ d => has_dropout d
  | sym.self_attention _ i l _ b =>
      has_dropout i || has_dropout l
      || match b with Some b' => has_dropout b' | None => false end
  | sym.enc_attention _ q _ m ml _ =>
      has_dropout q || has_dropout m || has_dropout ml
  end.

Definition prev_has_dropout (prev : option Symbol) : bool :=
  match prev with
  | Some p => has_dropout p
  | None => false
  end.

(** ** Process blocks: control flow *)

(** One stage of a block: name its result and shape, and step past it. *)
Ltac stage H :=
  let out := fresh "out" in
  let Hcall := fresh "Hcall" in
  let Hshape := fresh "Hshape" in
  destruct H as [out [Hcall Hshape]]; rewrite Hcall; cbn [Py.bind].

Lemma str_in_nonempty (c : ascii) (s : string) :
  str_in c s = true -> str_not s = false.
Proof. destruct s; simpl; [discriminate | reflexivity]. Qed.

Lemma first_unknown_nonempty (s : string) (c : ascii) :
  first_unknown_step s = Some c -> str_not s = false.
Proof. destruct s; simpl; [discriminate | reflexivity]. Qed.

Lemma first_unknown_all_known (s : string) :
  first_unknown_step s = None <-> all_known s = true.
Proof.
  induction s as [| c rest IH]; simpl.
  - tauto.
  - destruct (known_step c); simpl; [exact IH |].
    split; discriminate.
Qed.

Lemma dropout_node_is_new (d : Symbol) (p : float) (n : option string) :
  Dropout d p n <> d.
Proof.
  intros H. apply (f_equal sym.size) in H. simpl in H.
  apply (Nat.neq_succ_diag_l _ H).
Qed.

(** A known step other than [n] cannot raise; [n] needs the normalizer the
    constructor creates when the sequence has an [n]. *)
Lemma step_body_known (self : PB.t) (prev : option Symbol) (length : Z)
    (c : ascii) (data : Symbol) :
  known_step c = true ->
  (Ascii.eqb c "n" = true -> PB.layer_norm self <> None) ->
  exists out, PB.step_body self prev length c data = Ok out.
Proof.
  intros Hk Hn. unfold PB.step_body, known_step in *.
  destruct (Ascii.eqb c "r"); [eexists; reflexivity |].
  destruct (Ascii.eqb c "n").
  - unfold PB._reshape_and_normalize.
    destruct (PB.layer_norm self) as [ln |]; [| exfalso; now apply Hn].
    eexists; reflexivity.
  - destruct (Ascii.eqb c "d"); [| discriminate].
    destruct (PrimFloat.ltb 0 (PB.dropout self)); eexists; reflexivity.
Qed.

Lemma step_body_unknown (self : PB.t) (prev : option Symbol) (length : Z)
    (c : ascii) (data : Symbol) :
  known_step c = false ->
  PB.step_body self prev length c data = Raise (unknown_step_error c).
Proof.
  intros Hk. unfold PB.step_body, known_step in *.
  destruct (Ascii.eqb c "r"); [discriminate |].
  destruct (Ascii.eqb c "n"); [discriminate |].
  destruct (Ascii.eqb c "d"); [discriminate | reflexivity].
Qed.

Lemma first_unknown_is_unknown (s : string) (c : ascii) :
  first_unknown_step s = Some c ->
  known_step c = false /\ str_in c s = true.
Proof.
  induction s as [| x rest IH]; cbn [first_unknown_step str_in];
    [discriminate |].
  destruct (known_step x) eqn:Hk; intros H.
  - destruct (IH H) as [Hc Hin]. split; [exact Hc |].
    rewrite Hin. apply orb_true_r.
  - injection H as <-. split; [exact Hk |].
    rewrite Ascii.eqb_refl. reflexivity.
Qed.

Lemma not_all_known_first_unknown (s : string) :
  all_known s = false -> exists c, first_unknown_step s = Some c.
Proof.
  intros H. destruct (first_unknown_step s) as [c |] eqn:Hu.
  - exists c. reflexivity.
  - apply first_unknown_all_known in Hu. congruence.
Qed.

(** The loop reaches the first unknown step and raises there, when the
    normalizer is present for every [n] before it. *)
Lemma for_steps_unknown (self : PB.t) (prev : option Symbol) (length : Z)
    (steps : string) (c : ascii) :
  (str_in "n" steps = true -> PB.layer_norm self <> None) ->
  first_unknown_step steps = Some c ->
  forall data,
    PB.for_steps self prev length steps data = Raise (unknown_step_error c).
Proof.
  induction steps as [| x rest IH];
    cbn [PB.for_steps first_unknown_step str_in]; intros Hn Hu data;
    [discriminate |].
  destruct (known_step x) eqn:Hk.
  - destruct (step_body_known self prev length x data Hk) as [out Hout].
    + intros Hx. apply Hn. rewrite Ascii.eqb_sym, Hx. reflexivity.
    + rewrite Hout. cbn [Py.bind]. apply IH; [| exact Hu].
      intros H. apply Hn. rewrite H. apply orb_true_r.
  - injection Hu as <-. rewrite step_body_unknown by exact Hk. reflexivity.
Qed.

(** Without an [r] step the loop never reads [prev]. *)
Lemma for_steps_prev_irrelevant (self : PB.t) (length : Z) (steps : string)
    (p1 p2 : option Symbol) :
  str_in "r" steps = false ->
  forall data,
    PB.for_steps self p1 length steps data
    = PB.for_steps self p2 length steps data.
Proof.
  induction steps as [| x rest IH]; cbn [PB.for_steps str_in];
    intros Hr data; [reflexivity |].
  apply orb_false_iff in Hr. destruct Hr as [Hx Hrest].
  assert (Hstep : PB.step_body self p1 length x data
                  = PB.step_body self p2 length x data).
  { unfold PB.step_body. rewrite Ascii.eqb_sym in Hx. rewrite Hx. reflexivity. }
  rewrite Hstep.
  destruct (PB.step_body self p2 length x data); simpl; [| reflexivity].
  apply IH. exact Hrest.
Qed.

Lemma init_layer_norm (sequence : string) (num_hidden : Z) (dropout : float)
    (prefix : string) :
  str_in "n" sequence = true ->
  PB.layer_norm (PB.__init__ sequence num_hidden dropout prefix) <> None.
Proof. intros H. simpl. rewrite H. discriminate. Qed.

(** C2: a sequence that contains [r], called with no previous value, raises
    the residual assertion error whatever its other steps are; the check
    precedes the loop, so it is this error also when the loop would have
    stopped at an unknown step before reaching [r]. *)
Theorem process_block_residual_requires_prev
    (self : PB.t) (data : Symbol) (length : Z) :
  str_in "r" (PB.sequence self) = true ->
  PB.__call__ self data None length = Raise (AssertionError residual_msg).
Proof.
  intros Hr. unfold PB.__call__.
  rewrite (str_in_nonempty _ _ Hr), Hr. reflexivity.
Qed.

Lemma process_block_residual_requires_prev_witness :
  str_in "r" (PB.sequence (PB.__init__ "xnr" 8 0.5%float "att_")) = true /\
  PB.__call__ (PB.__init__ "xnr" 8 0.5%float "att_") (Var "data") None 5
  = Raise (AssertionError residual_msg) /\
  PB.for_steps (PB.__init__ "xnr" 8 0.5%float "att_") None 5 "xnr" (Var "data")
  = Raise (unknown_step_error "x").
Proof.
  split; [reflexivity |].
  split; [| reflexivity].
  apply (process_block_residual_requires_prev
           (PB.__init__ "xnr" 8 0.5%float "att_") (Var "data") 5).
  reflexivity.
Defined.

(** C3: a block whose sequence is empty returns its input node, for every
    previous value and length, whatever its other fields are. *)
Theorem process_block_empty_sequence_identity
    (self : PB.t) (data : Symbol) (prev : option Symbol) (length : Z) :
  PB.sequence self = EmptyString ->
  PB.__call__ self data prev length = Ok data.
Proof.
  intros Hempty. unfold PB.__call__. rewrite Hempty. reflexivity.
Qed.

Lemma process_block_empty_sequence_identity_witness :
  PB.sequence (PB.__init__ "" 8 0.5%float "pre_") = EmptyString /\
  PB.__call__ (PB.__init__ "" 8 0.5%float "pre_") (Var "data") None 5
  = Ok (Var "data") /\
  PB.__call__ (PB.__init__ "" 8 0.5%float "pre_") (Var "data")
              (Some (Var "prev")) 100
  = Ok (Var "data").
Proof.
  split; [reflexivity |].
  split;
    apply (process_block_empty_sequence_identity
             (PB.__init__ "" 8 0.5%float "pre_"));
    reflexivity.
Defined.

(** C4: with sequence [d], a dropout rate of zero returns the input node
    itself, with no [Dropout] operator around it; in general the block
    returns [Dropout data rate] when [0 < rate] and [data] otherwise, and
    the two differ.  The same holds of a [d] step inside any sequence. *)
Theorem process_block_zero_dropout_noop
    (num_hidden : Z) (prefix : string)
    (data : Symbol) (prev : option Symbol) (length : Z) :
  PB.__call__ (PB.__init__ "d" num_hidden 0%float prefix) data prev length
  = Ok data
  /\ (forall rate,
        PB.__call__ (PB.__init__ "d" num_hidden rate prefix) data prev length
        = Ok (if PrimFloat.ltb 0 rate
              then Dropout data rate (Some (prefix ++ "dropout")%string)
              else data))
  /\ (forall rate,
        PB.__call__ (PB.__init__ "d" num_hidden rate prefix) data prev length
        = Ok data
        <-> PrimFloat.ltb 0 rate = false)
  /\ (forall sequence,
        PB.step_body (PB.__init__ sequence num_hidden 0%float prefix)
                     prev length "d" data
        = Ok data).
Proof.
  assert (Hgen : forall rate,
             PB.__call__ (PB.__init__ "d" num_hidden rate prefix)
                         data prev length
             = Ok (if PrimFloat.ltb 0 rate
                   then Dropout data rate (Some (prefix ++ "dropout")%string)
                   else data)).
  { intros rate. unfold PB.__call__, PB.__init__; simpl.
    destruct prev; simpl; unfold PB.step_body; simpl;
      destruct (PrimFloat.ltb 0 rate); reflexivity. }
  split; [apply (Hgen 0%float) |].
  split; [exact Hgen |].
  split.
  - intros rate. rewrite Hgen.
    destruct (PrimFloat.ltb 0 rate); split; intros H;
      try reflexivity; try discriminate.
    injection H as H. exfalso. exact (dropout_node_is_new _ _ _ H).
  - intros sequence. reflexivity.
Qed.

(** C6, as the code has it: a sequence with a character outside [n], [r],
    [d] makes the call raise; no value is returned.  For a dropout rate, a
    size and a length in range the error is the unknown-step [ValueError]
    naming the first such character [c], except when the sequence also has
    an [r] and no previous value is given: the assertion before the loop
    then raises first. *)
Theorem process_block_unknown_step_raises
    (sequence : string) (num_hidden : Z) (dropout : float) (prefix : string)
    (data : Symbol) (prev : option Symbol) (length : Z) :
  all_known sequence = false ->
  exists c,
    first_unknown_step sequence = Some c
    /\ known_step c = false
    /\ str_in c sequence = true
    /\ (exists e,
          PB.__call__ (PB.__init__ sequence num_hidden dropout prefix)
                      data prev length = Raise e)
    /\ (rate_in_range dropout = true ->
        dim_in_range num_hidden = true ->
        dim_in_range length = true ->
        PB.__call__ (PB.__init__ sequence num_hidden dropout prefix)
                    data prev length
        = Raise (if is_None prev && str_in "r" sequence
                 then AssertionError residual_msg
                 else unknown_step_error c)).
Proof.
  intros Hall.
  destruct (not_all_known_first_unknown sequence Hall) as [c Hu].
  destruct (first_unknown_is_unknown sequence c Hu) as [Hc Hin].
  assert (Hcall :
            PB.__call__ (PB.__init__ sequence num_hidden dropout prefix)
                        data prev length
            = Raise (if is_None prev && str_in "r" sequence
                     then AssertionError residual_msg
                     else unknown_step_error c)).
  { unfold PB.__call__.
    change (PB.sequence (PB.__init__ sequence num_hidden dropout prefix))
      with sequence.
    rewrite (first_unknown_nonempty _ _ Hu).
    assert (Hloop : forall p,
               PB.for_steps (PB.__init__ sequence num_hidden dropout prefix)
                            p length sequence data
               = Raise (unknown_step_error c)).
    { intros p. apply for_steps_unknown; [apply init_layer_norm | exact Hu]. }
    destruct prev as [p |]; simpl.
    + apply Hloop.
    + destruct (str_in "r" sequence); simpl; [reflexivity | apply Hloop]. }
  exists c. repeat split; try assumption.
  - eexists. exact Hcall.
  - intros _ _ _. exact Hcall.
Qed.

Lemma process_block_unknown_step_raises_witness :
  all_known "nxd" = false /\
  exists c,
    first_unknown_step "nxd" = Some c
    /\ PB.__call__ (PB.__init__ "nxd" 8 0.5%float "ff_") (Var "data")
                   (Some (Var "prev")) 5
       = Raise (unknown_step_error c).
Proof.
  split; [reflexivity |].
  destruct (process_block_unknown_step_raises
              "nxd" 8 0.5%float "ff_" (Var "data") (Some (Var "prev")) 5
              eq_refl) as [c [Hu [_ [_ [_ Hprecise]]]]].
  exists c. split; [exact Hu |].
  exact (Hprecise eq_refl eq_refl eq_refl).
Defined.

(** C6 as stated fails for the sequence [xr] called with no previous value:
    the error raised is the residual assertion, and no unknown-step error. *)
Lemma unknown_step_preceded_by_residual_assertion :
  all_known "xr" = false
  /\ PB.__call__ (PB.__init__ "xr" 8 0.5%float "pre_") (Var "data") None 5
     = Raise (AssertionError residual_msg)
  /\ ~ (exists c,
          PB.__call__ (PB.__init__ "xr" 8 0.5%float "pre_") (Var "data")
                      None 5
          = Raise (unknown_step_error c)).
Proof.
  assert (Hcall : PB.__call__ (PB.__init__ "xr" 8 0.5%float "pre_")
                              (Var "data") None 5
                  = Raise (AssertionError residual_msg)) by reflexivity.
  split; [reflexivity |]. split; [exact Hcall |].
  intros [c H]. rewrite Hcall in H. unfold unknown_step_error in H.
  discriminate H.
Qed.

(** C10: for a sequence without [r], the result of the call, value or
    error, is the same for any two previous values, absent or not. *)
Theorem process_block_prev_irrelevant_without_residual
    (self : PB.t) (data : Symbol) (p1 p2 : option Symbol) (length : Z) :
  str_in "r" (PB.sequence self) = false ->
  PB.__call__ self data p1 length = PB.__call__ self data p2 length.
Proof.
  intros Hr. unfold PB.__call__.
  destruct (str_not (PB.sequence self)); [reflexivity |].
  rewrite Hr.
  rewrite (for_steps_prev_irrelevant self length (PB.sequence self) p1 p2 Hr).
  destruct p1, p2; reflexivity.
Qed.

Lemma process_block_prev_irrelevant_without_residual_witness :
  str_in "r" (PB.sequence (PB.__init__ "nd" 8 0.5%float "pre_")) = false /\
  PB.__call__ (PB.__init__ "nd" 8 0.5%float "pre_") (Var "data") None 5
  = PB.__call__ (PB.__init__ "nd" 8 0.5%float "pre_") (Var "data")
                (Some (Var "other")) 5.
Proof.
  split; [reflexivity |].
  apply (process_block_prev_irrelevant_without_residual
           (PB.__init__ "nd" 8 0.5%float "pre_") (Var "data")
           None (Some (Var "other")) 5).
  reflexivity.
Defined.

(** ** Shapes through [reshape] *)

Import shapes.

Lemma reshape_walk_dim (dshape : Shape) (d : Z) (rest : list Z) :
  0 < d ->
  reshape_walk dshape (d :: rest)
  = option_map (cons (Some d)) (reshape_walk (tl dshape) rest).
Proof.
  intros Hd. cbn [reshape_walk].
  destruct (Z.eqb_spec d 0); [lia |].
  destruct (Z.eqb_spec d (-1)); [lia |].
  destruct (Z.eqb_spec d (-2)); [lia |].
  destruct (Z.eqb_spec d (-3)); [lia |].
  destruct (Z.eqb_spec d (-4)); [lia |].
  reflexivity.
Qed.

Lemma reshape_walk_merge (s1 s2 : Z) (dshape : Shape) (rest : list Z) :
  reshape_walk (s1 :: s2 :: dshape) (-3 :: rest)
  = option_map (cons (Some (s1 * s2))) (reshape_walk dshape rest).
Proof. reflexivity. Qed.

Lemma reshape_walk_infer (dshape : Shape) (rest : list Z) :
  reshape_walk dshape (-1 :: rest)
  = option_map (cons None) (reshape_walk (tl dshape) rest).
Proof. reflexivity. Qed.

Lemma reshape_walk_split_left (d0 d2 : Z) (dshape : Shape) (rest : list Z) :
  d2 <> -1 ->
  reshape_walk (d0 :: dshape) (-4 :: -1 :: d2 :: rest)
  = if (d0 ÷ d2) * d2 =? d0
    then option_map (fun t => Some (d0 ÷ d2) :: Some d2 :: t)
                    (reshape_walk dshape rest)
    else None.
Proof.
  intros H. cbn [reshape_walk Z.eqb andb].
  destruct (Z.eqb_spec d2 (-1)); [contradiction | reflexivity].
Qed.

Lemma quot_cancel (a k : Z) : k <> 0 -> (a * k) ÷ k = a.
Proof. intros Hk. apply Z.quot_mul. exact Hk. Qed.

(** [(-3, h)]: batch and positions are merged, the feature axis is kept. *)
Lemma reshape_flatten_keep (b l h : Z) :
  0 < h -> infer_reshape_shape [b; l; h] [-3; h] = Some [b * l; h].
Proof.
  intros Hh. unfold infer_reshape_shape.
  replace (reshape_walk [b; l; h] [-3; h]) with (Some [Some (b * l); Some h]).
  - cbn [count_inferred filter List.length Nat.ltb Nat.leb List.map size_of
         fold_right].
    replace (b * l * (h * 1) =? b * (l * (h * 1))) with true; [reflexivity |].
    symmetry. apply Z.eqb_eq. ring.
  - rewrite reshape_walk_merge, reshape_walk_dim by exact Hh.
    reflexivity.
Qed.

(** [(-4, -1, length, h)]: the merged axis is split back. *)
Lemma reshape_split_restore (b l h : Z) :
  0 < l -> 0 < h ->
  infer_reshape_shape [b * l; h] [-4; -1; l; h] = Some [b; l; h].
Proof.
  intros Hl Hh. unfold infer_reshape_shape.
  replace (reshape_walk [b * l; h] [-4; -1; l; h])
    with (Some [Some b; Some l; Some h]).
  - cbn [count_inferred filter List.length Nat.ltb Nat.leb List.map size_of
         fold_right].
    replace (b * (l * (h * 1)) =? b * l * (h * 1)) with true; [reflexivity |].
    symmetry. apply Z.eqb_eq. ring.
  - rewrite reshape_walk_split_left by lia.
    rewrite quot_cancel by lia.
    rewrite Z.eqb_refl, reshape_walk_dim by exact Hh.
    reflexivity.
Qed.

(** [(-3, -1)]: batch and positions are merged, the rest is inferred. *)
Lemma reshape_flatten_infer (b l m : Z) :
  0 < b -> 0 < l ->
  infer_reshape_shape [b; l; m] [-3; -1] = Some [b * l; m].
Proof.
  intros Hb Hl. unfold infer_reshape_shape.
  rewrite reshape_walk_merge, reshape_walk_infer.
  cbn [reshape_walk tl option_map count_inferred filter List.length
       Nat.ltb Nat.leb List.map size_of known_size fold_right].
  replace (b * (l * (m * 1)) ÷ (b * l * 1)) with m.
  - replace (b * l * (m * 1) =? b * (l * (m * 1))) with true; [reflexivity |].
    symmetry. apply Z.eqb_eq. ring.
  - replace (b * (l * (m * 1))) with (m * (b * l * 1)) by ring.
    symmetry. apply quot_cancel. nia.
Qed.

(** [(-1, length, m)]: the first axis is inferred from the element count. *)
Lemma reshape_restore_infer (b l m : Z) :
  0 < l -> 0 < m ->
  infer_reshape_shape [b * l; m] [-1; l; m] = Some [b; l; m].
Proof.
  intros Hl Hm. unfold infer_reshape_shape.
  rewrite reshape_walk_infer. cbn [tl].
  rewrite (reshape_walk_dim [m] l [m]) by exact Hl.
  cbn [tl]. rewrite (reshape_walk_dim [] m []) by exact Hm.
  cbn [reshape_walk tl option_map count_inferred filter List.length
       Nat.ltb Nat.leb List.map size_of known_size fold_right].
  replace (b * l * (m * 1) ÷ (l * (m * 1))) with b.
  - replace (b * (l * (m * 1)) =? b * l * (m * 1)) with true; [reflexivity |].
    symmetry. apply Z.eqb_eq. ring.
  - replace (b * l * (m * 1)) with (b * (l * (m * 1))) by ring.
    symmetry. apply quot_cancel. nia.
Qed.

Lemma shape_eqb_refl (s : Shape) : shape_eqb s s = true.
Proof. unfold shape_eqb. destruct (list_eq_dec Z.eq_dec s s); congruence. Qed.

(** ** Process blocks: shapes *)

Section ProcessShapes.

Variable env : string -> option Shape.
Variable self : PB.t.
Variables b length : Z.
Hypothesis Hlength : 0 < length.
Hypothesis Hhidden : 0 < PB.num_hidden self.

Let shp : Shape := [b; length; PB.num_hidden self].

Lemma reshape_and_normalize_shape (data : Symbol) (ln : layers.LayerNormalization) :
  PB.layer_norm self = Some ln ->
  infer_shape env data = Some shp ->
  exists out,
    PB._reshape_and_normalize self data length = Ok out /\
    infer_shape env out = Some shp.
Proof.
  intros Hln Hdata. unfold PB._reshape_and_normalize. rewrite Hln.
  eexists; split; [reflexivity |].
  cbn [infer_shape]. rewrite Hdata. unfold shp.
  rewrite reshape_flatten_keep by exact Hhidden.
  apply reshape_split_restore; assumption.
Qed.

Lemma step_body_shape (prev : option Symbol) (c : ascii) (data : Symbol) :
  known_step c = true ->
  (Ascii.eqb c "n" = true -> PB.layer_norm self <> None) ->
  (Ascii.eqb c "r" = true -> prev_fits env shp prev) ->
  infer_shape env data = Some shp ->
  exists out,
    PB.step_body self prev length c data = Ok out /\
    infer_shape env out = Some shp.
Proof.
  intros Hk Hn Hr Hdata. unfold PB.step_body, known_step in *.
  destruct (Ascii.eqb c "r").
  - destruct (Hr eq_refl) as [p [-> Hp]].
    eexists; split; [reflexivity |].
    cbn [infer_shape]. rewrite Hdata, Hp, shape_eqb_refl. reflexivity.
  - destruct (Ascii.eqb c "n").
    + destruct (PB.layer_norm self) as [ln |] eqn:Hln;
        [| exfalso; now apply Hn].
      apply (reshape_and_normalize_shape data ln Hln Hdata).
    + destruct (Ascii.eqb c "d"); [| discriminate].
      destruct (PrimFloat.ltb 0 (PB.dropout self));
        eexists; (split; [reflexivity | exact Hdata]).
Qed.

Lemma for_steps_shape (prev : option Symbol) (steps : string) :
  all_known steps = true ->
  (str_in "n" steps = true -> PB.layer_norm self <> None) ->
  (str_in "r" steps = true -> prev_fits env shp prev) ->
  forall data,
    infer_shape env data = Some shp ->
    exists out,
      PB.for_steps self prev length steps data = Ok out /\
      infer_shape env out = Some shp.
Proof.
  induction steps as [| x rest IH];
    cbn [PB.for_steps all_known str_in]; intros Hk Hn Hr data Hdata.
  - exists data. split; [reflexivity | exact Hdata].
  - apply andb_true_iff in Hk. destruct Hk as [Hx Hrest].
    destruct (step_body_shape prev x data Hx) as [mid [Hmid Hshape]].
    + intros E. apply Hn. rewrite Ascii.eqb_sym, E. reflexivity.
    + intros E. apply Hr. rewrite Ascii.eqb_sym, E. reflexivity.
    + exact Hdata.
    + rewrite Hmid. cbn [Py.bind]. apply IH; [exact Hrest | | | exact Hshape].
      * intros E. apply Hn. rewrite E. apply orb_true_r.
      * intros E. apply Hr. rewrite E. apply orb_true_r.
Qed.

End ProcessShapes.

(** A block built by the constructor, applied to a tensor of shape
    [(b, length, num_hidden)], returns a tensor of that shape when all its
    steps are known and the previous value, if an [r] step reads it, has
    that shape too. *)
Lemma process_block_call_shape (env : string -> option Shape)
    (sequence : string) (num_hidden : Z) (dropout : float) (prefix : string)
    (b length : Z) (data : Symbol) (prev : option Symbol) :
  0 < length -> 0 < num_hidden ->
  all_known sequence = true ->
  (str_in "r" sequence = true ->
   exists p, prev = Some p /\
             infer_shape env p = Some [b; length; num_hidden]) ->
  infer_shape env data = Some [b; length; num_hidden] ->
  exists out,
    PB.__call__ (PB.__init__ sequence num_hidden dropout prefix)
                data prev length = Ok out /\
    infer_shape env out = Some [b; length; num_hidden].
Proof.
  intros Hl Hh Hk Hr Hdata. unfold PB.__call__.
  change (PB.sequence (PB.__init__ sequence num_hidden dropout prefix))
    with sequence.
  destruct (str_not sequence).
  - exists data. split; [reflexivity | exact Hdata].
  - assert (Hcheck : match prev with
                     | None => assert (negb (str_in "r" sequence)) residual_msg
                     | Some _ => Ok tt
                     end = Ok tt).
    { destruct prev as [p |]; [reflexivity |].
      destruct (str_in "r" sequence); [| reflexivity].
      destruct (Hr eq_refl) as [p [Hp _]]. discriminate. }
    unfold residual_msg in Hcheck. rewrite Hcheck. cbn [Py.bind].
    apply (for_steps_shape env (PB.__init__ sequence num_hidden dropout prefix)
             b length Hl Hh prev sequence Hk).
    + apply init_layer_norm.
    + exact Hr.
    + exact Hdata.
Qed.

(** C5: on a tensor of shape [(b, length, num_hidden)] the [n] step builds
    reshape, normalize, reshape: the first reshape merges batch and
    positions into one axis of [b * length] rows, normalization keeps that
    shape, the second reshape returns to [(b, length, num_hidden)], whose
    second dimension is the [length] passed in; the element count is the
    same before and after.  A block with sequence [n] returns that node. *)
Theorem normalize_step_shape_round_trip
    (env : string -> option Shape) (sequence : string) (num_hidden : Z)
    (dropout : float) (prefix : string) (b length : Z)
    (data : Symbol) (prev : option Symbol) :
  0 < length -> 0 < num_hidden ->
  str_in "n" sequence = true ->
  infer_shape env data = Some [b; length; num_hidden] ->
  let self := PB.__init__ sequence num_hidden dropout prefix in
  let ln := {| layers.ln_num_hidden := num_hidden;
               layers.ln_prefix := (prefix ++ "norm")%string |} in
  let flat := sym.reshape data [-3; num_hidden] None in
  let normed := normalize ln flat in
  let out := sym.reshape normed [-4; -1; length; num_hidden]
                         (Some (prefix ++ "normalized")%string) in
  PB._reshape_and_normalize self data length = Ok out
  /\ PB.step_body self prev length "n" data = Ok out
  /\ PB.__call__ (PB.__init__ "n" num_hidden dropout prefix) data prev length
     = Ok out
  /\ infer_shape env flat = Some [b * length; num_hidden]
  /\ infer_shape env normed = Some [b * length; num_hidden]
  /\ infer_shape env out = Some [b; length; num_hidden]
  /\ infer_shape env out = infer_shape env data
  /\ nth_error [b; length; num_hidden] 1 = Some length
  /\ size_of [b * length; num_hidden] = size_of [b; length; num_hidden].
Proof.
  intros Hl Hh Hn Hdata self ln flat normed out.
  assert (Hcall : PB._reshape_and_normalize self data length = Ok out).
  { unfold PB._reshape_and_normalize, self. simpl. rewrite Hn. reflexivity. }
  assert (Hflat : infer_shape env flat = Some [b * length; num_hidden]).
  { unfold flat. cbn [infer_shape]. rewrite Hdata.
    apply reshape_flatten_keep. exact Hh. }
  assert (Hnormed : infer_shape env normed = Some [b * length; num_hidden]).
  { unfold normed. cbn [infer_shape]. fold flat. rewrite Hflat. reflexivity. }
  assert (Hout : infer_shape env out = Some [b; length; num_hidden]).
  { unfold out. cbn [infer_shape]. fold flat. fold normed. rewrite Hnormed.
    apply reshape_split_restore; assumption. }
  repeat split; try assumption.
  - destruct prev; reflexivity.
  - congruence.
  - unfold size_of. cbn [fold_right]. ring.
Qed.

Lemma normalize_step_shape_round_trip_witness :
  infer_shape example_env
    (sym.reshape
       (normalize {| layers.ln_num_hidden := 4; layers.ln_prefix := "pre_norm" |}
                  (sym.reshape (Var "data") [-3; 4] None))
       [-4; -1; 5; 4] (Some "pre_normalized"%string))
  = Some [2; 5; 4].
Proof.
  apply (normalize_step_shape_round_trip
           example_env "dn" 4 0.5%float "pre_" 2 5 (Var "data") None);
    reflexivity.
Defined.

(** ** Feed-forward layer *)

(** The output of the layer has the shape of its input. *)
Lemma feed_forward_shape (env : string -> option Shape) (self : FF.t)
    (b length : Z) (x : Symbol) :
  0 < b -> 0 < length -> 0 < FF.num_model self ->
  infer_shape env x = Some [b; length; FF.num_model self] ->
  infer_shape env (FF.__call__ self x length)
  = Some [b; length; FF.num_model self].
Proof.
  intros Hb Hl Hm Hx. unfold FF.__call__.
  destruct (PrimFloat.ltb 0 (FF.dropout self)); cbn [infer_shape];
    rewrite Hx, reshape_flatten_infer by assumption; cbv beta iota;
    apply reshape_restore_infer; assumption.
Qed.

(** C9: on an input of shape [(b, length, num_model)] the layer builds, in
    this order, the reshape that merges batch and length, the projection to
    [num_hidden], ReLU, a [Dropout] node exactly when the rate is above 0,
    the projection back to [num_model], and the reshape to
    [(-1, length, num_model)]; the shapes along the way are as listed and
    the output shape is the input shape. *)
Theorem feed_forward_pipeline_and_shape
    (env : string -> option Shape) (self : FF.t) (b length : Z) (x : Symbol) :
  0 < b -> 0 < length -> 0 < FF.num_model self ->
  infer_shape env x = Some [b; length; FF.num_model self] ->
  let flat := sym.reshape x [-3; -1] None in
  let h1 := FullyConnected flat (FF.num_hidden self)
                           (FF.w_i2h self) (FF.b_i2h self) in
  let h2 := Activation h1 "relu" in
  let h3 := if PrimFloat.ltb 0 (FF.dropout self)
            then Dropout h2 (FF.dropout self) None else h2 in
  let y := FullyConnected h3 (FF.num_model self)
                          (FF.w_h2o self) (FF.b_h2o self) in
  FF.__call__ self x length
  = sym.reshape y [-1; length; FF.num_model self] None
  /\ (h3 = h2 <-> PrimFloat.ltb 0 (FF.dropout self) = false)
  /\ infer_shape env flat = Some [b * length; FF.num_model self]
  /\ infer_shape env h1 = Some [b * length; FF.num_hidden self]
  /\ infer_shape env h2 = Some [b * length; FF.num_hidden self]
  /\ infer_shape env h3 = Some [b * length; FF.num_hidden self]
  /\ infer_shape env y = Some [b * length; FF.num_model self]
  /\ infer_shape env (FF.__call__ self x length)
     = Some [b; length; FF.num_model self].
Proof.
  intros Hb Hl Hm Hx flat h1 h2 h3 y.
  assert (Hflat : infer_shape env flat = Some [b * length; FF.num_model self]).
  { unfold flat. cbn [infer_shape]. rewrite Hx.
    apply reshape_flatten_infer; assumption. }
  assert (H1 : infer_shape env h1 = Some [b * length; FF.num_hidden self]).
  { unfold h1. cbn [infer_shape]. fold flat. rewrite Hflat. reflexivity. }
  assert (H2 : infer_shape env h2 = Some [b * length; FF.num_hidden self]).
  { exact H1. }
  assert (H3 : infer_shape env h3 = Some [b * length; FF.num_hidden self]).
  { unfold h3. destruct (PrimFloat.ltb 0 (FF.dropout self)); exact H2. }
  assert (Hy : infer_shape env y = Some [b * length; FF.num_model self]).
  { unfold y. cbn [infer_shape]. rewrite H3. reflexivity. }
  split; [reflexivity |].
  split.
  { unfold h3. destruct (PrimFloat.ltb 0 (FF.dropout self)); split; intros H;
      try reflexivity; try discriminate. }
  repeat split; try assumption.
  apply feed_forward_shape; assumption.
Qed.

Lemma feed_forward_pipeline_and_shape_witness :
  infer_shape example_env
    (FF.__call__ (FF.__init__ 16 4 0.5%float "ff_") (Var "data") 5)
  = Some [2; 5; 4].
Proof.
  apply (feed_forward_pipeline_and_shape
           example_env (FF.__init__ 16 4 0.5%float "ff_") 2 5 (Var "data"));
    reflexivity.
Defined.

(** ** Encoder and decoder blocks *)

Lemma pre_block_shape (env : string -> option Shape) (sequence : string)
    (num_hidden : Z) (dropout : float) (prefix : string) (b length : Z)
    (data : Symbol) :
  0 < length -> 0 < num_hidden ->
  valid_preprocess sequence = true ->
  infer_shape env data = Some [b; length; num_hidden] ->
  exists out,
    PB.__call__ (PB.__init__ sequence num_hidden dropout prefix)
                data None length = Ok out /\
    infer_shape env out = Some [b; length; num_hidden].
Proof.
  intros Hl Hh Hv Hdata. apply andb_true_iff in Hv. destruct Hv as [Hk Hr].
  apply process_block_call_shape; try assumption.
  intros E. rewrite E in Hr. discriminate.
Qed.

Lemma post_block_shape (env : string -> option Shape) (sequence : string)
    (num_hidden : Z) (dropout : float) (prefix : string) (b length : Z)
    (data prev : Symbol) :
  0 < length -> 0 < num_hidden ->
  valid_postprocess sequence = true ->
  infer_shape env data = Some [b; length; num_hidden] ->
  infer_shape env prev = Some [b; length; num_hidden] ->
  exists out,
    PB.__call__ (PB.__init__ sequence num_hidden dropout prefix)
                data (Some prev) length = Ok out /\
    infer_shape env out = Some [b; length; num_hidden].
Proof.
  intros Hl Hh Hv Hdata Hprev.
  apply process_block_call_shape; try assumption.
  intros _. exists prev. split; [reflexivity | exact Hprev].
Qed.

Lemma encoder_block_shape (env : string -> option Shape)
    (config : TransformerConfig) (prefix : string) (b length : Z)
    (data data_length : Symbol) :
  0 < b -> 0 < length -> 0 < model_size config ->
  valid_preprocess (preprocess_sequence config) = true ->
  valid_postprocess (postprocess_sequence config) = true ->
  infer_shape env data = Some [b; length; model_size config] ->
  exists out,
    Enc.__call__ (Enc.__init__ config prefix) data data_length length = Ok out
    /\ infer_shape env out = Some [b; length; model_size config].
Proof.
  intros Hb Hl Hm Hpre Hpost Hdata.
  unfold Enc.__call__, Enc.__init__;
    cbn [Enc.pre_self_attention Enc.self_attention Enc.post_self_attention
         Enc.pre_ff Enc.ff Enc.post_ff].
  stage (pre_block_shape env _ _ (dropout_prepost config)
           (fmt_prefix prefix "att_self_pre_") b _ data Hl Hm Hpre Hdata).
  match goal with
  | |- context [PB.__call__ ?blk ?d (Some data) length] =>
      assert (Hatt : infer_shape env d = Some [b; length; model_size config])
        by (cbn [infer_shape]; rewrite Hshape; reflexivity)
  end.
  stage (post_block_shape env _ _ (dropout_prepost config)
           (fmt_prefix prefix "att_self_post_") b _ _ data Hl Hm Hpost
           Hatt Hdata).
  stage (pre_block_shape env _ _ (dropout_prepost config)
           (fmt_prefix prefix "ff_pre_") b _ out0 Hl Hm Hpre Hshape0).
  match goal with
  | |- context [FF.__call__ ?f ?x length] =>
      pose proof (feed_forward_shape env f b length x Hb Hl Hm Hshape1) as Hff
  end.
  stage (post_block_shape env _ _ (dropout_prepost config)
           (fmt_prefix prefix "ff_post_") b _ _ out0 Hl Hm Hpost
           Hff Hshape0).
  eexists; split; [reflexivity | assumption].
Qed.

(** C7: the encoder block returns [out] exactly when the six stages, in
    this order, produce it: pre-self-attention on the input with no
    previous value, self-attention (no bias), post-self-attention with the
    block input as previous value, pre-feed-forward with no previous value,
    feed-forward, post-feed-forward with the result of the self-attention
    stage as previous value; it raises exactly the error of the first
    process block that raises.  For a block built from a configuration with
    usable sequences and an input of shape [(b, length, model_size)], the
    call returns a tensor of that shape. *)
Theorem encoder_block_pipeline
    (self : Enc.t) (data data_length : Symbol) (length : Z) :
  (forall out,
     Enc.__call__ self data data_length length = Ok out
     <-> exists normed attn_out data' normed2 ff_out,
           PB.__call__ (Enc.pre_self_attention self) data None length
           = Ok normed
           /\ attn_out = sym.self_attention (Enc.self_attention self) normed
                                            data_length length None
           /\ PB.__call__ (Enc.post_self_attention self) attn_out (Some data)
                          length = Ok data'
           /\ PB.__call__ (Enc.pre_ff self) data' None length = Ok normed2
           /\ ff_out = FF.__call__ (Enc.ff self) normed2 length
           /\ PB.__call__ (Enc.post_ff self) ff_out (Some data') length
              = Ok out)
  /\ (forall e,
        Enc.__call__ self data data_length length = Raise e
        <-> PB.__call__ (Enc.pre_self_attention self) data None length
            = Raise e
            \/ exists normed,
                 PB.__call__ (Enc.pre_self_attention self) data None length
                 = Ok normed
                 /\ let attn_out :=
                      sym.self_attention (Enc.self_attention self) normed
                                         data_length length None in
                    (PB.__call__ (Enc.post_self_attention self) attn_out
                                 (Some data) length = Raise e
                     \/ exists data',
                          PB.__call__ (Enc.post_self_attention self) attn_out
                                      (Some data) length = Ok data'
                          /\ (PB.__call__ (Enc.pre_ff self) data' None length
                              = Raise e
                              \/ exists normed2,
                                   PB.__call__ (Enc.pre_ff self) data' None
                                               length = Ok normed2
                                   /\ PB.__call__ (Enc.post_ff self)
                                        (FF.__call__ (Enc.ff self) normed2
                                                     length)
                                        (Some data') length = Raise e)))
  /\ (forall env config prefix b,
        self = Enc.__init__ config prefix ->
        0 < b -> 0 < length -> 0 < model_size config ->
        valid_preprocess (preprocess_sequence config) = true ->
        valid_postprocess (postprocess_sequence config) = true ->
        infer_shape env data = Some [b; length; model_size config] ->
        exists out,
          Enc.__call__ self data data_length length = Ok out
          /\ infer_shape env out = infer_shape env data).
Proof.
  split; [| split].
  - intros out. unfold Enc.__call__. split.
    + intros H.
      destruct (PB.__call__ (Enc.pre_self_attention self) data None length)
        as [normed |]; cbn [Py.bind] in H; [| discriminate].
      destruct (PB.__call__ (Enc.post_self_attention self) _ (Some data) length)
        as [data' |] eqn:H2; cbn [Py.bind] in H; [| discriminate].
      destruct (PB.__call__ (Enc.pre_ff self) data' None length)
        as [normed2 |] eqn:H3; cbn [Py.bind] in H; [| discriminate].
      destruct (PB.__call__ (Enc.post_ff self) _ (Some data') length)
        as [final |] eqn:H4; cbn [Py.bind] in H; [| discriminate].
      injection H as <-.
      exists normed, (sym.self_attention (Enc.self_attention self) normed
                                         data_length length None),
        data', normed2, (FF.__call__ (Enc.ff self) normed2 length).
      repeat split; assumption.
    + intros [normed [attn_out [data' [normed2 [ff_out
               [H1 [-> [H2 [H3 [-> H4]]]]]]]]]].
      rewrite H1; cbn [Py.bind]. rewrite H2; cbn [Py.bind].
      rewrite H3; cbn [Py.bind]. rewrite H4; reflexivity.
  - intros e. unfold Enc.__call__. split.
    + intros H.
      destruct (PB.__call__ (Enc.pre_self_attention self) data None length)
        as [normed |]; cbn [Py.bind] in H; [| left; exact H].
      right. exists normed. split; [reflexivity |]. cbv zeta.
      destruct (PB.__call__ (Enc.post_self_attention self) _ (Some data) length)
        as [data' |] eqn:H2; cbn [Py.bind] in H; [| left; exact H].
      right. exists data'. split; [reflexivity |].
      destruct (PB.__call__ (Enc.pre_ff self) data' None length)
        as [normed2 |] eqn:H3; cbn [Py.bind] in H; [| left; exact H].
      right. exists normed2. split; [reflexivity |].
      destruct (PB.__call__ (Enc.post_ff self) _ (Some data') length)
        as [final |] eqn:H4; cbn [Py.bind] in H; [discriminate | exact H].
    + intros [H1 | [normed [H1 H]]]; [rewrite H1; reflexivity |].
      rewrite H1; cbn [Py.bind]. cbv zeta in H.
      destruct H as [H2 | [data' [H2 H]]]; [rewrite H2; reflexivity |].
      rewrite H2; cbn [Py.bind].
      destruct H as [H3 | [normed2 [H3 H4]]]; [rewrite H3; reflexivity |].
      rewrite H3; cbn [Py.bind]. rewrite H4. reflexivity.
  - intros env config prefix b -> Hb Hl Hm Hpre Hpost Hdata.
    rewrite Hdata.
    apply encoder_block_shape; assumption.
Qed.

Lemma encoder_block_pipeline_witness :
  exists out,
    Enc.__call__ (Enc.__init__ example_config "enc_") (Var "data")
                 (Var "data_length") 5 = Ok out
    /\ infer_shape example_env out = infer_shape example_env (Var "data").
Proof.
  apply (proj2 (proj2 (encoder_block_pipeline
                         (Enc.__init__ example_config "enc_") (Var "data")
                         (Var "data_length") 5))
           example_env example_config "enc_"%string 2);
    reflexivity.
Defined.

(** *** Where the bias goes *)

Lemma step_body_drop (self : PB.t) (prev : option Symbol) (length : Z)
    (c : ascii) (data : Symbol) :
  Py.map drop (PB.step_body self prev length c data)
  = PB.step_body self (option_map drop prev) length c (drop data).
Proof.
  unfold PB.step_body.
  destruct (Ascii.eqb c "r"); [destruct prev; reflexivity |].
  destruct (Ascii.eqb c "n").
  { unfold PB._reshape_and_normalize.
    destruct (PB.layer_norm self); reflexivity. }
  destruct (Ascii.eqb c "d"); [| reflexivity].
  destruct (PrimFloat.ltb 0 (PB.dropout self)); reflexivity.
Qed.

Lemma for_steps_drop (self : PB.t) (prev : option Symbol) (length : Z)
    (steps : string) :
  forall data,
    Py.map drop (PB.for_steps self prev length steps data)
    = PB.for_steps self (option_map drop prev) length steps (drop data).
Proof.
  induction steps as [| x rest IH]; cbn [PB.for_steps]; intros data;
    [reflexivity |].
  rewrite <- step_body_drop.
  destruct (PB.step_body self prev length x data) as [mid | e];
    [| reflexivity].
  cbn [Py.map Py.bind]. apply IH.
Qed.

(** A process block commutes with removing self-attention biases. *)
Lemma process_block_call_drop (self : PB.t) (data : Symbol)
    (prev : option Symbol) (length : Z) :
  Py.map drop (PB.__call__ self data prev length)
  = PB.__call__ self (drop data) (option_map drop prev) length.
Proof.
  unfold PB.__call__.
  destruct (str_not (PB.sequence self)); [reflexivity |].
  destruct prev as [p |]; cbn [option_map Py.bind].
  - apply for_steps_drop.
  - destruct (assert (negb (str_in "r" (PB.sequence self))) _) as [[] | e];
      cbn [Py.bind]; [apply (for_steps_drop self None) | reflexivity].
Qed.

(** Two process-block calls whose arguments agree up to self-attention
    biases have results that agree up to self-attention biases. *)
Lemma process_block_call_drop_eq (self : PB.t) (d1 d2 : Symbol)
    (p1 p2 : option Symbol) (length : Z) :
  drop d1 = drop d2 ->
  option_map drop p1 = option_map drop p2 ->
  Py.map drop (PB.__call__ self d1 p1 length)
  = Py.map drop (PB.__call__ self d2 p2 length).
Proof.
  intros Hd Hp. rewrite !process_block_call_drop, Hd, Hp. reflexivity.
Qed.

Lemma feed_forward_call_drop_eq (self : FF.t) (x1 x2 : Symbol) (length : Z) :
  drop x1 = drop x2 ->
  drop (FF.__call__ self x1 length) = drop (FF.__call__ self x2 length).
Proof.
  intros Hx. unfold FF.__call__.
  destruct (PrimFloat.ltb 0 (FF.dropout self)); cbn [drop];
    rewrite Hx; reflexivity.
Qed.

Lemma bind_drop_eq (m1 m2 : result Symbol) (k1 k2 : Symbol -> result Symbol) :
  Py.map drop m1 = Py.map drop m2 ->
  (forall a1 a2, drop a1 = drop a2 ->
                 Py.map drop (k1 a1) = Py.map drop (k2 a2)) ->
  Py.map drop (Py.bind m1 k1) = Py.map drop (Py.bind m2 k2).
Proof.
  intros Hm Hk. destruct m1 as [a1 | e1], m2 as [a2 | e2];
    cbn [Py.map Py.bind] in *; try discriminate.
  - apply Hk. congruence.
  - exact Hm.
Qed.

(** The decoder outputs for two biases agree once self-attention biases are
    removed. *)
Lemma decoder_bias_only_in_self_attention
    (self : Dec.t) (target target_lengths : Symbol) (target_max_length : Z)
    (bias1 bias2 : Symbol) (source source_lengths : Symbol)
    (source_max_length : Z) :
  Py.map drop (Dec.__call__ self target target_lengths target_max_length
                            bias1 source source_lengths source_max_length)
  = Py.map drop (Dec.__call__ self target target_lengths target_max_length
                              bias2 source source_lengths source_max_length).
Proof.
  unfold Dec.__call__.
  apply bind_drop_eq; [reflexivity | intros pre1 pre2 Hpre].
  apply bind_drop_eq.
  { apply process_block_call_drop_eq; [| reflexivity].
    cbn [drop]. rewrite Hpre. reflexivity. }
  intros t1 t2 Ht.
  apply bind_drop_eq.
  { apply process_block_call_drop_eq; [exact Ht | reflexivity]. }
  intros q1 q2 Hq.
  apply bind_drop_eq.
  { apply process_block_call_drop_eq.
    - cbn [drop]. rewrite Hq. reflexivity.
    - cbn [option_map]. rewrite Ht. reflexivity. }
  intros u1 u2 Hu.
  apply bind_drop_eq.
  { apply process_block_call_drop_eq; [exact Hu | reflexivity]. }
  intros r1 r2 Hr.
  apply bind_drop_eq.
  { apply process_block_call_drop_eq.
    - apply feed_forward_call_drop_eq. exact Hr.
    - cbn [option_map]. rewrite Hu. reflexivity. }
  intros v1 v2 Hv. cbn [Py.map Py.bind]. rewrite Hv. reflexivity.
Qed.

Lemma decoder_block_shape (env : string -> option Shape)
    (config : TransformerConfig) (prefix : string) (b : Z)
    (target target_lengths : Symbol) (target_max_length : Z)
    (target_bias source source_lengths : Symbol) (source_max_length : Z) :
  0 < b -> 0 < target_max_length -> 0 < model_size config ->
  valid_preprocess (preprocess_sequence config) = true ->
  valid_postprocess (postprocess_sequence config) = true ->
  infer_shape env target = Some [b; target_max_length; model_size config] ->
  exists out,
    Dec.__call__ (Dec.__init__ config prefix) target target_lengths
                 target_max_length target_bias source source_lengths
                 source_max_length = Ok out
    /\ infer_shape env out = Some [b; target_max_length; model_size config].
Proof.
  intros Hb Hl Hm Hpre Hpost Hdata.
  unfold Dec.__call__, Dec.__init__;
    cbn [Dec.pre_self_attention Dec.self_attention Dec.post_self_attention
         Dec.pre_enc_attention Dec.enc_attention Dec.post_enc_attention
         Dec.pre_ff Dec.ff Dec.post_ff].
  stage (pre_block_shape env _ _ (dropout_prepost config)
           (fmt_prefix prefix "att_self_pre_") b _ target Hl Hm Hpre Hdata).
  match goal with
  | |- context [PB.__call__ ?blk ?d (Some target) target_max_length] =>
      assert (Hatt : infer_shape env d
                     = Some [b; target_max_length; model_size config])
        by (cbn [infer_shape]; rewrite Hshape; reflexivity)
  end.
  stage (post_block_shape env _ _ (dropout_prepost config)
           (fmt_prefix prefix "att_self_post_") b _ _ target Hl Hm Hpost
           Hatt Hdata).
  stage (pre_block_shape env _ _ (dropout_prepost config)
           (fmt_prefix prefix "att_enc_pre_") b _ out0 Hl Hm Hpre Hshape0).
  match goal with
  | |- context [PB.__call__ ?blk ?d (Some out0) target_max_length] =>
      assert (Henc : infer_shape env d
                     = Some [b; target_max_length; model_size config])
        by (cbn [infer_shape]; rewrite Hshape1; reflexivity)
  end.
  stage (post_block_shape env _ _ (dropout_prepost config)
           (fmt_prefix prefix "att_enc_post_") b _ _ out0 Hl Hm Hpost
           Henc Hshape0).
  stage (pre_block_shape env _ _ (dropout_prepost config)
           (fmt_prefix prefix "ff_pre_") b _ out2 Hl Hm Hpre Hshape2).
  match goal with
  | |- context [FF.__call__ ?f ?x target_max_length] =>
      pose proof (feed_forward_shape env f b target_max_length x
                    Hb Hl Hm Hshape3) as Hff
  end.
  stage (post_block_shape env _ _ (dropout_prepost config)
           (fmt_prefix prefix "ff_post_") b _ _ out2 Hl Hm Hpost
           Hff Hshape2).
  eexists; split; [reflexivity | assumption].
Qed.

(** C8: the decoder block returns [out] exactly when its nine stages, in
    this order, produce it: the three self-attention stages of the encoder
    with [target_bias] as the bias of the self-attention call, then
    pre-encoder-attention with no previous value, encoder attention with
    the target as queries and [source] as memory, post-encoder-attention,
    and the three feed-forward stages; each post stage receives the tensor
    its stage started from as previous value.  The bias reaches the output
    through self-attention bias arguments only: outputs for two biases are
    equal once those arguments are removed.  For a block built from a
    configuration with usable sequences and a target of shape
    [(b, target_max_length, model_size)], the call returns a tensor of that
    shape. *)
Theorem decoder_block_pipeline
    (self : Dec.t) (target target_lengths : Symbol) (target_max_length : Z)
    (target_bias source source_lengths : Symbol) (source_max_length : Z) :
  (forall out,
     Dec.__call__ self target target_lengths target_max_length target_bias
                  source source_lengths source_max_length = Ok out
     <-> exists normed self_att target1 normed2 enc_att target2 normed3 ff_out,
           PB.__call__ (Dec.pre_self_attention self) target None
                       target_max_length = Ok normed
           /\ self_att = sym.self_attention (Dec.self_attention self) normed
                           target_lengths target_max_length (Some target_bias)
           /\ PB.__call__ (Dec.post_self_attention self) self_att
                          (Some target) target_max_length = Ok target1
           /\ PB.__call__ (Dec.pre_enc_attention self) target1 None
                          target_max_length = Ok normed2
           /\ enc_att = sym.enc_attention (Dec.enc_attention self) normed2
                          target_max_length source source_lengths
                          source_max_length
           /\ PB.__call__ (Dec.post_enc_attention self) enc_att
                          (Some target1) target_max_length = Ok target2
           /\ PB.__call__ (Dec.pre_ff self) target2 None target_max_length
              = Ok normed3
           /\ ff_out = FF.__call__ (Dec.ff self) normed3 target_max_length
           /\ PB.__call__ (Dec.post_ff self) ff_out (Some target2)
                          target_max_length = Ok out)
  /\ (forall other_bias,
        Py.map drop_self_attention_bias
          (Dec.__call__ self target target_lengths target_max_length
                        target_bias source source_lengths source_max_length)
        = Py.map drop_self_attention_bias
            (Dec.__call__ self target target_lengths target_max_length
                          other_bias source source_lengths source_max_length))
  /\ (forall env config prefix b,
        self = Dec.__init__ config prefix ->
        0 < b -> 0 < target_max_length -> 0 < model_size config ->
        valid_preprocess (preprocess_sequence config) = true ->
        valid_postprocess (postprocess_sequence config) = true ->
        infer_shape env target
        = Some [b; target_max_length; model_size config] ->
        exists out,
          Dec.__call__ self target target_lengths target_max_length
                       target_bias source source_lengths source_max_length
          = Ok out
          /\ infer_shape env out = infer_shape env target).
Proof.
  split; [| split].
  - intros out. unfold Dec.__call__. split.
    + intros H.
      destruct (PB.__call__ (Dec.pre_self_attention self) target None
                            target_max_length)
        as [normed |]; cbn [Py.bind] in H; [| discriminate].
      destruct (PB.__call__ (Dec.post_self_attention self) _ (Some target)
                            target_max_length)
        as [target1 |] eqn:H2; cbn [Py.bind] in H; [| discriminate].
      destruct (PB.__call__ (Dec.pre_enc_attention self) target1 None
                            target_max_length)
        as [normed2 |] eqn:H3; cbn [Py.bind] in H; [| discriminate].
      destruct (PB.__call__ (Dec.post_enc_attention self) _ (Some target1)
                            target_max_length)
        as [target2 |] eqn:H4; cbn [Py.bind] in H; [| discriminate].
      destruct (PB.__call__ (Dec.pre_ff self) target2 None target_max_length)
        as [normed3 |] eqn:H5; cbn [Py.bind] in H; [| discriminate].
      destruct (PB.__call__ (Dec.post_ff self) _ (Some target2)
                            target_max_length)
        as [final |] eqn:H6; cbn [Py.bind] in H; [| discriminate].
      injection H as <-.
      exists normed. eexists. exists target1, normed2. eexists.
      exists target2, normed3. eexists.
      repeat split; try reflexivity; eassumption.
    + intros [normed [self_att [target1 [normed2 [enc_att [target2 [normed3
               [ff_out [H1 [-> [H2 [H3 [-> [H4 [H5 [-> H6]]]]]]]]]]]]]]]].
      rewrite H1; cbn [Py.bind]. rewrite H2; cbn [Py.bind].
      rewrite H3; cbn [Py.bind]. rewrite H4; cbn [Py.bind].
      rewrite H5; cbn [Py.bind]. rewrite H6; reflexivity.
  - intros other_bias. apply decoder_bias_only_in_self_attention.
  - intros env config prefix b -> Hb Hl Hm Hpre Hpost Htarget.
    rewrite Htarget.
    apply decoder_block_shape; assumption.
Qed.

Lemma decoder_block_pipeline_witness :
  exists out,
    Dec.__call__ (Dec.__init__ example_config "dec_") (Var "data")
                 (Var "target_lengths") 5 (Var "target_bias")
                 (Var "source") (Var "source_lengths") 7 = Ok out
    /\ infer_shape example_env out = infer_shape example_env (Var "data").
Proof.
  apply (proj2 (proj2 (decoder_block_pipeline
                         (Dec.__init__ example_config "dec_") (Var "data")
                         (Var "target_lengths") 5 (Var "target_bias")
                         (Var "source") (Var "source_lengths") 7))
           example_env example_config "dec_"%string 2);
    reflexivity.
Defined.

(** ** The autoregressive bias *)

Lemma length_mapi_from {A B : Type} (f : Z -> A -> B) (l : list A) :
  forall i, List.length (np.mapi_from f i l) = List.length l.
Proof.
  induction l as [| x rest IH]; intros i; cbn [np.mapi_from List.length];
    [reflexivity | now rewrite IH].
Qed.

Lemma nth_error_mapi_from {A B : Type} (f : Z -> A -> B) (l : list A) :
  forall (n : nat) (i : Z),
    nth_error (np.mapi_from f i l) n
    = option_map (f (i + Z.of_nat n)) (nth_error l n).
Proof.
  induction l as [| x rest IH]; intros n i.
  - destruct n; reflexivity.
  - destruct n as [| n]; cbn [np.mapi_from nth_error].
    + cbn [option_map Z.of_nat]. now rewrite Z.add_0_r.
    + rewrite IH. f_equal. f_equal. lia.
Qed.

Lemma nth_error_repeat_lt {A : Type} (x : A) (n k : nat) :
  (k < n)%nat -> nth_error (repeat x n) k = Some x.
Proof.
  revert k. induction n as [| n IH]; intros k Hk; [lia |].
  destruct k as [| k]; cbn [repeat nth_error]; [reflexivity |].
  apply IH. lia.
Qed.

Lemma np_reshape_bias (a : np.ndarray) (length : Z) :
  0 <= length ->
  Z.of_nat (List.length (np.data a)) = length * length ->
  np.reshape a [1; length; length]
  = Ok {| np.shape := [1; length; length]; np.data := np.data a |}.
Proof.
  intros Hl Hsize. unfold np.reshape.
  cbn [existsb filter Z.eqb Z.ltb Z.compare negb orb].
  destruct (Z.ltb_spec length (-1)); [lia |].
  destruct (Z.eqb_spec length (-1)); [lia |].
  cbn [negb List.length np.prod fold_right orb].
  rewrite Hsize.
  replace (1 * (length * (length * 1)) =? length * length) with true;
    [reflexivity |].
  symmetry. apply Z.eqb_eq. ring.
Qed.

(** The array the function returns, for a non-negative length. *)
Lemma get_bias_closed_form (length : Z) :
  0 <= length ->
  AutoRegressiveBias.get_bias length
  = Ok {| np.shape := [1; length; length];
          np.data :=
            List.map AutoRegressiveBias.to_float32
              (List.map (PrimFloat.mul large_negative)
                 (np.mapi_from
                    (fun idx v =>
                       if ((idx / length) mod length) + 1 <=? idx mod length
                       then v else 0%float)
                    0 (repeat 1%float (Z.to_nat (length * length))))) |}.
Proof.
  intros Hl. unfold AutoRegressiveBias.get_bias, np.ones.
  cbn [forallb]. destruct (Z.leb_spec 0 length); [| lia].
  cbn [andb Py.bind]. unfold np.triu. cbn [np.shape rev app Py.bind np.data].
  unfold np.prod. cbn [fold_right]. rewrite Z.mul_1_r.
  rewrite np_reshape_bias.
  - reflexivity.
  - exact Hl.
  - cbn [np.data]. rewrite length_mapi_from, repeat_length.
    apply Z2Nat.id. nia.
Qed.

Lemma ravel_bias (length i j : Z) :
  0 <= i < length -> 0 <= j < length ->
  np.ravel [1; length; length] [0; i; j] 0 = Some (i * length + j).
Proof.
  intros Hi Hj. cbn [np.ravel Z.ltb Z.leb Z.compare andb Z.mul Z.add].
  destruct (Z.ltb_spec i 0); [lia |].
  destruct (Z.leb_spec 0 i); [| lia].
  destruct (Z.ltb_spec i length); [| lia].
  cbn [andb].
  destruct (Z.ltb_spec j 0); [lia |].
  destruct (Z.leb_spec 0 j); [| lia].
  destruct (Z.ltb_spec j length); [| lia].
  reflexivity.
Qed.

Lemma row_of_flat_index (length i j : Z) :
  0 <= i < length -> 0 <= j < length ->
  ((i * length + j) / length) mod length = i
  /\ (i * length + j) mod length = j.
Proof.
  intros Hi Hj.
  assert (Hq : (i * length + j) / length = i).
  { symmetry. apply (Z.div_unique_pos _ _ i j); lia. }
  assert (Hr : (i * length + j) mod length = j).
  { symmetry. apply (Z.mod_unique_pos _ _ i j); lia. }
  rewrite Hq, Hr. split; [apply Z.mod_small; lia | reflexivity].
Qed.

(** Every in-range entry of the bias is the mask entry times the constant,
    as stored in binary32. *)
Lemma get_bias_item (length : Z) (bias : np.ndarray) (i j : Z) :
  AutoRegressiveBias.get_bias length = Ok bias ->
  0 <= i < length -> 0 <= j < length ->
  np.item bias [0; i; j]
  = Some (AutoRegressiveBias.to_float32 (bias_entry i j)).
Proof.
  intros Hbias Hi Hj.
  rewrite get_bias_closed_form in Hbias by lia. injection Hbias as <-.
  unfold np.item. cbn [np.shape np.data].
  rewrite ravel_bias by assumption.
  rewrite !nth_error_map, nth_error_mapi_from.
  rewrite nth_error_repeat_lt by nia.
  cbn [option_map]. rewrite Z.add_0_l, Z2Nat.id by nia.
  destruct (row_of_flat_index length i j Hi Hj) as [-> ->].
  reflexivity.
Qed.

(** C1, as the code has it: for every length of at least 1 the function
    returns an array of shape [(1, length, length)], the shape the operator
    declares and the graph infers, with [length * length] elements.  The
    entries are stored in binary32, where -99999999 is not a value: the
    entry at row [i], column [j] equals -100000000, the binary32 value
    nearest to -99999999, when [i < j], and equals 0 when [i >= j].  For
    length 1 the array is the single entry 0. *)
Theorem get_bias_upper_triangle (length : Z) :
  1 <= length ->
  exists bias,
    AutoRegressiveBias.get_bias length = Ok bias
    /\ np.shape bias = [1; length; length]
    /\ AutoRegressiveBiasProp.infer_shape
         {| AutoRegressiveBiasProp.length := length |} []
       = ([], [np.shape bias], [])
    /\ (forall env name,
          infer_shape env (get_autoregressive_bias length name)
          = Some (np.shape bias))
    /\ Z.of_nat (List.length (np.data bias)) = length * length
    /\ AutoRegressiveBias.to_float32 (-99999999)%float = (-100000000)%float
    /\ (forall i j,
          0 <= i < length -> 0 <= j < length -> i < j ->
          entry_equals bias [0; i; j] (-100000000)%float)
    /\ (forall i j,
          0 <= i < length -> 0 <= j < length -> i >= j ->
          entry_equals bias [0; i; j] 0%float)
    /\ (length = 1 ->
        np.data bias = [(-0)%float] /\ entry_equals bias [0; 0; 0] 0%float).
Proof.
  intros Hl.
  assert (Hclosed := get_bias_closed_form length ltac:(lia)).
  eexists. split; [exact Hclosed |].
  split; [reflexivity |].
  split; [reflexivity |].
  split; [reflexivity |].
  split.
  { cbn [np.data]. rewrite !length_map, length_mapi_from, repeat_length.
    apply Z2Nat.id. nia. }
  split; [vm_compute; reflexivity |].
  split; [| split].
  - intros i j Hi Hj Hij. eexists. split.
    + apply (get_bias_item length _ i j Hclosed Hi Hj).
    + unfold bias_entry. destruct (Z.leb_spec (i + 1) j); [| lia].
      vm_compute. reflexivity.
  - intros i j Hi Hj Hij. eexists. split.
    + apply (get_bias_item length _ i j Hclosed Hi Hj).
    + unfold bias_entry. destruct (Z.leb_spec (i + 1) j); [lia |].
      vm_compute. reflexivity.
  - intros ->. split; [vm_compute; reflexivity |].
    exists (-0)%float. split; vm_compute; reflexivity.
Qed.

Lemma get_bias_upper_triangle_witness :
  exists bias,
    AutoRegressiveBias.get_bias 3 = Ok bias
    /\ np.shape bias = [1; 3; 3]
    /\ entry_equals bias [0; 0; 2] (-100000000)%float
    /\ entry_equals bias [0; 2; 1] 0%float.
Proof.
  destruct (get_bias_upper_triangle 3 ltac:(lia))
    as [bias [Hb [Hs [_ [_ [_ [_ [Hup [Hlow _]]]]]]]]].
  exists bias. split; [exact Hb |]. split; [exact Hs |].
  split; [apply Hup | apply Hlow]; lia.
Defined.

(** C1 as stated fails for length 2: the entry above the diagonal of the
    returned array is not equal to -99999999. *)
Lemma get_bias_entry_is_not_the_float64_constant :
  exists bias,
    AutoRegressiveBias.get_bias 2 = Ok bias
    /\ ~ entry_equals bias [0; 0; 1] (-99999999)%float.
Proof.
  eexists. split; [vm_compute; reflexivity |].
  intros [e [He Heq]]. vm_compute in He. injection He as <-.
  vm_compute in Heq. discriminate Heq.
Qed.

(** * Further properties of the blocks *)

(** ** Process blocks: when the call returns *)

Lemma process_block_call_cases (sequence : string) (num_hidden : Z)
    (dropout : float) (prefix : string) (data : Symbol)
    (prev : option Symbol) (length : Z) :
  PB.__call__ (PB.__init__ sequence num_hidden dropout prefix) data prev length
  = if str_not sequence then Ok data
    else if is_None prev && str_in "r" sequence
         then Raise (AssertionError residual_msg)
         else PB.for_steps (PB.__init__ sequence num_hidden dropout prefix)
                           prev length sequence data.
Proof.
  unfold PB.__call__.
  change (PB.sequence (PB.__init__ sequence num_hidden dropout prefix))
    with sequence.
  destruct (str_not sequence); [reflexivity |].
  destruct prev as [p |]; [reflexivity |].
  cbn [is_None andb]. destruct (str_in "r" sequence); reflexivity.
Qed.

Lemma for_steps_known (self : PB.t) (prev : option Symbol) (length : Z)
    (steps : string) :
  all_known steps = true ->
  (str_in "n" steps = true -> PB.layer_norm self <> None) ->
  forall data, exists out, PB.for_steps self prev length steps data = Ok out.
Proof.
  induction steps as [| x rest IH]; cbn [PB.for_steps all_known str_in];
    intros Hk Hn data.
  - exists data. reflexivity.
  - apply andb_true_iff in Hk. destruct Hk as [Hx Hrest].
    destruct (step_body_known self prev length x data Hx) as [mid Hmid].
    + intros E. apply Hn. rewrite Ascii.eqb_sym, E. reflexivity.
    + rewrite Hmid. cbn [Py.bind]. apply IH; [exact Hrest |].
      intros E. apply Hn. rewrite E. apply orb_true_r.
Qed.

Lemma all_known_nonempty (s : string) :
  all_known s = false -> str_not s = false.
Proof. destruct s; [discriminate | reflexivity]. Qed.

(** X1: for a dropout rate, a size and a length in range, a block built by
    the constructor returns a value exactly when every step of its sequence
    is known and no [r] step is asked of a missing previous value;
    otherwise it raises the residual assertion or the unknown-step error,
    and no other exception of its own. *)
Theorem process_block_returns_iff_valid
    (sequence : string) (num_hidden : Z) (dropout : float) (prefix : string)
    (data : Symbol) (prev : option Symbol) (length : Z) :
  rate_in_range dropout = true ->
  dim_in_range num_hidden = true ->
  dim_in_range length = true ->
  ((exists out,
      PB.__call__ (PB.__init__ sequence num_hidden dropout prefix)
                  data prev length = Ok out)
   <-> all_known sequence = true
       /\ is_None prev && str_in "r" sequence = false)
  /\ match PB.__call__ (PB.__init__ sequence num_hidden dropout prefix)
                       data prev length with
     | Ok _ => True
     | Raise e =>
         e = AssertionError residual_msg
         \/ exists c, known_step c = false /\ str_in c sequence = true
                      /\ e = unknown_step_error c
     end.
Proof.
  intros _ _ _.
  rewrite process_block_call_cases.
  destruct (all_known sequence) eqn:Hall.
  - destruct (str_not sequence) eqn:Hnot.
    { split; [| exact I]. split; [| intros _; eexists; reflexivity].
      intros _. split; [reflexivity |].
      destruct sequence; [apply andb_false_r | discriminate Hnot]. }
    destruct (is_None prev && str_in "r" sequence).
    + split; [| left; reflexivity].
      split; [intros [out H]; discriminate | intros [_ H]; discriminate].
    + destruct (for_steps_known
                  (PB.__init__ sequence num_hidden dropout prefix)
                  prev length sequence Hall
                  (init_layer_norm sequence num_hidden dropout prefix) data)
        as [out Hout].
      rewrite Hout. split; [| exact I].
      split; [intros _; split; reflexivity | intros _; exists out; reflexivity].
  - rewrite (all_known_nonempty _ Hall).
    destruct (not_all_known_first_unknown sequence Hall) as [c Hu].
    destruct (first_unknown_is_unknown sequence c Hu) as [Hc Hin].
    rewrite (for_steps_unknown
               (PB.__init__ sequence num_hidden dropout prefix)
               prev length sequence c
               (init_layer_norm sequence num_hidden dropout prefix) Hu).
    split.
    + split; [| intros [H _]; discriminate].
      intros [out H].
      destruct (is_None prev && str_in "r" sequence); discriminate.
    + destruct (is_None prev && str_in "r" sequence);
        [left; reflexivity | right; exists c; repeat split; assumption].
Qed.

Lemma process_block_returns_iff_valid_witness :
  exists out,
    PB.__call__ (PB.__init__ "drn" 8 0.5%float "post_") (Var "data")
                (Some (Var "prev")) 5 = Ok out.
Proof.
  apply (proj2 (proj1 (process_block_returns_iff_valid
                         "drn" 8 0.5%float "post_" (Var "data")
                         (Some (Var "prev")) 5 eq_refl eq_refl eq_refl))).
  split; reflexivity.
Defined.

(** X2: a block built by the constructor with known steps, applied to a
    tensor of shape [(b, length, num_hidden)] and, where an [r] step reads
    it, a previous value of that shape, returns a tensor of that shape. *)
Theorem process_block_preserves_shape
    (env : string -> option Shape) (sequence : string) (num_hidden : Z)
    (dropout : float) (prefix : string) (b length : Z)
    (data : Symbol) (prev : option Symbol) :
  0 < length -> 0 < num_hidden ->
  all_known sequence = true ->
  (str_in "r" sequence = true ->
   prev_fits env [b; length; num_hidden] prev) ->
  infer_shape env data = Some [b; length; num_hidden] ->
  exists out,
    PB.__call__ (PB.__init__ sequence num_hidden dropout prefix)
                data prev length = Ok out
    /\ infer_shape env out = infer_shape env data.
Proof.
  intros Hl Hh Hk Hr Hdata. rewrite Hdata.
  apply process_block_call_shape; assumption.
Qed.

Lemma process_block_preserves_shape_witness :
  exists out,
    PB.__call__ (PB.__init__ "drn" 4 0.5%float "post_")
                (Dropout (Var "data") 0.5%float None) (Some (Var "data")) 5
    = Ok out
    /\ infer_shape example_env out
       = infer_shape example_env (Dropout (Var "data") 0.5%float None).
Proof.
  apply (process_block_preserves_shape
           example_env "drn" 4 0.5%float "post_" 2 5
           (Dropout (Var "data") 0.5%float None) (Some (Var "data")));
    try reflexivity.
  intros _. exists (Var "data"). split; reflexivity.
Defined.

(** ** Process blocks: what a step reads *)

(** The loop reads the block through its prefix, through its dropout rate
    at [d] steps, and through its size, normalizer and the length at [n]
    steps. *)
Lemma for_steps_ext (self1 self2 : PB.t) (prev : option Symbol)
    (len1 len2 : Z) (steps : string) :
  PB.prefix self1 = PB.prefix self2 ->
  (str_in "d" steps = true -> PB.dropout self1 = PB.dropout self2) ->
  (str_in "n" steps = true ->
   PB.num_hidden self1 = PB.num_hidden self2
   /\ PB.layer_norm self1 = PB.layer_norm self2 /\ len1 = len2) ->
  forall data,
    PB.for_steps self1 prev len1 steps data
    = PB.for_steps self2 prev len2 steps data.
Proof.
  intros Hp. induction steps as [| x rest IH];
    cbn [PB.for_steps str_in]; intros Hd Hn data; [reflexivity |].
  assert (Hstep : PB.step_body self1 prev len1 x data
                  = PB.step_body self2 prev len2 x data).
  { unfold PB.step_body, PB._reshape_and_normalize. rewrite Hp.
    destruct (Ascii.eqb x "r"); [reflexivity |].
    destruct (Ascii.eqb x "n") eqn:En.
    { destruct Hn as [-> [-> ->]]; [| reflexivity].
      rewrite Ascii.eqb_sym, En. reflexivity. }
    destruct (Ascii.eqb x "d") eqn:Ed; [| reflexivity].
    rewrite Hd; [reflexivity |].
    rewrite Ascii.eqb_sym, Ed. reflexivity. }
  rewrite Hstep.
  destruct (PB.step_body self2 prev len2 x data); cbn [Py.bind];
    [| reflexivity].
  apply IH.
  - intros E. apply Hd. rewrite E. apply orb_true_r.
  - intros E. apply Hn. rewrite E. apply orb_true_r.
Qed.

(** X3: without an [n] step, the result of a block, value or error, does
    not depend on the length passed in nor on the block's [num_hidden]. *)
Theorem process_block_length_irrelevant_without_normalize
    (sequence : string) (nh1 nh2 : Z) (dropout : float) (prefix : string)
    (data : Symbol) (prev : option Symbol) (len1 len2 : Z) :
  str_in "n" sequence = false ->
  PB.__call__ (PB.__init__ sequence nh1 dropout prefix) data prev len1
  = PB.__call__ (PB.__init__ sequence nh2 dropout prefix) data prev len2.
Proof.
  intros Hn. rewrite !process_block_call_cases.
  destruct (str_not sequence); [reflexivity |].
  destruct (is_None prev && str_in "r" sequence); [reflexivity |].
  apply for_steps_ext; try reflexivity.
  rewrite Hn. discriminate.
Qed.

Lemma process_block_length_irrelevant_without_normalize_witness :
  PB.__call__ (PB.__init__ "dr" 4 0.5%float "post_") (Var "data")
              (Some (Var "prev")) 5
  = PB.__call__ (PB.__init__ "dr" 512 0.5%float "post_") (Var "data")
                (Some (Var "prev")) 100.
Proof.
  apply (process_block_length_irrelevant_without_normalize
           "dr" 4 512 0.5%float "post_" (Var "data") (Some (Var "prev"))
           5 100).
  reflexivity.
Defined.

(** X4: without a [d] step, the result of a block, value or error, does
    not depend on its dropout rate. *)
Theorem process_block_rate_irrelevant_without_dropout
    (sequence : string) (num_hidden : Z) (rate1 rate2 : float)
    (prefix : string) (data : Symbol) (prev : option Symbol) (length : Z) :
  str_in "d" sequence = false ->
  PB.__call__ (PB.__init__ sequence num_hidden rate1 prefix) data prev length
  = PB.__call__ (PB.__init__ sequence num_hidden rate2 prefix) data prev
                length.
Proof.
  intros Hd. rewrite !process_block_call_cases.
  destruct (str_not sequence); [reflexivity |].
  destruct (is_None prev && str_in "r" sequence); [reflexivity |].
  apply for_steps_ext; try reflexivity.
  - rewrite Hd. discriminate.
  - intros _. repeat split; reflexivity.
Qed.

Lemma process_block_rate_irrelevant_without_dropout_witness :
  PB.__call__ (PB.__init__ "nr" 4 0.5%float "post_") (Var "data")
              (Some (Var "prev")) 5
  = PB.__call__ (PB.__init__ "nr" 4 0%float "post_") (Var "data")
                (Some (Var "prev")) 5.
Proof.
  apply (process_block_rate_irrelevant_without_dropout
           "nr" 4 0.5%float 0%float "post_" (Var "data")
           (Some (Var "prev")) 5).
  reflexivity.
Defined.

(** ** Process blocks: splitting and shortening the sequence *)

Lemma str_in_app (c : ascii) (s1 s2 : string) :
  str_in c (s1 ++ s2) = str_in c s1 || str_in c s2.
Proof.
  induction s1 as [| x rest IH]; cbn [append str_in]; [reflexivity |].
  rewrite IH. apply orb_assoc.
Qed.

Lemma for_steps_app (self : PB.t) (prev : option Symbol) (length : Z)
    (s1 s2 : string) :
  forall data,
    PB.for_steps self prev length (s1 ++ s2) data
    = Py.bind (PB.for_steps self prev length s1 data)
              (PB.for_steps self prev length s2).
Proof.
  induction s1 as [| x rest IH]; cbn [append PB.for_steps]; intros data;
    [reflexivity |].
  destruct (PB.step_body self prev length x data); cbn [Py.bind];
    [apply IH | reflexivity].
Qed.

Lemma init_layer_norm_value (sequence : string) (num_hidden : Z)
    (dropout : float) (prefix : string) :
  str_in "n" sequence = true ->
  PB.layer_norm (PB.__init__ sequence num_hidden dropout prefix)
  = Some {| layers.ln_num_hidden := num_hidden;
            layers.ln_prefix := fmt_prefix prefix "norm" |}.
Proof. intros H. cbn [PB.__init__ PB.layer_norm]. rewrite H. reflexivity. Qed.

(** Over steps that are part of both sequences, two blocks that differ in
    their sequence only behave alike. *)
Lemma for_steps_other_sequence (seq1 seq2 : string) (num_hidden : Z)
    (dropout : float) (prefix : string) (prev : option Symbol) (length : Z)
    (steps : string) :
  (str_in "n" steps = true ->
   str_in "n" seq1 = true /\ str_in "n" seq2 = true) ->
  forall data,
    PB.for_steps (PB.__init__ seq1 num_hidden dropout prefix)
                 prev length steps data
    = PB.for_steps (PB.__init__ seq2 num_hidden dropout prefix)
                   prev length steps data.
Proof.
  intros Hn. apply for_steps_ext; try reflexivity.
  intros E. destruct (Hn E) as [H1 H2].
  rewrite !init_layer_norm_value by assumption. repeat split; reflexivity.
Qed.

(** X5: a sequence may be split in two: when no [r] step is asked of a
    missing previous value, the block for [s1 ++ s2] gives the result of
    the block for [s1] followed by the block for [s2], values and errors
    alike. *)
Theorem process_block_sequence_splits
    (s1 s2 : string) (num_hidden : Z) (dropout : float) (prefix : string)
    (data : Symbol) (prev : option Symbol) (length : Z) :
  is_None prev && str_in "r" (s1 ++ s2) = false ->
  PB.__call__ (PB.__init__ (s1 ++ s2) num_hidden dropout prefix)
              data prev length
  = do mid <- PB.__call__ (PB.__init__ s1 num_hidden dropout prefix)
                          data prev length;
    PB.__call__ (PB.__init__ s2 num_hidden dropout prefix) mid prev length.
Proof.
  intros Hr.
  assert (Hr1 : is_None prev && str_in "r" s1 = false
                /\ is_None prev && str_in "r" s2 = false).
  { rewrite str_in_app in Hr. destruct (is_None prev); [| split; reflexivity].
    cbn [andb] in *. apply orb_false_iff in Hr. exact Hr. }
  destruct Hr1 as [Hr1 Hr2].
  destruct s1 as [| x r1]; [reflexivity |].
  rewrite (process_block_call_cases (String x r1 ++ s2)), Hr.
  rewrite (process_block_call_cases (String x r1)), Hr1.
  cbn [append str_not].
  change (String x (r1 ++ s2)) with (String x r1 ++ s2)%string.
  rewrite for_steps_app.
  rewrite (for_steps_other_sequence (String x r1 ++ s2) (String x r1)
             num_hidden dropout prefix prev length (String x r1)).
  2:{ intros E. split; [| exact E]. rewrite str_in_app, E. reflexivity. }
  destruct (PB.for_steps (PB.__init__ (String x r1) num_hidden dropout prefix)
                         prev length (String x r1) data) as [mid | e];
    cbn [Py.bind]; [| reflexivity].
  rewrite (process_block_call_cases s2), Hr2.
  destruct s2 as [| y r2]; [reflexivity |]. cbn [str_not].
  apply for_steps_other_sequence.
  intros E. split; [| exact E]. rewrite str_in_app, E. apply orb_true_r.
Qed.

Lemma process_block_sequence_splits_witness :
  PB.__call__ (PB.__init__ "drn" 4 0.5%float "post_") (Var "data")
              (Some (Var "prev")) 5
  = do mid <- PB.__call__ (PB.__init__ "dr" 4 0.5%float "post_") (Var "data")
                          (Some (Var "prev")) 5;
    PB.__call__ (PB.__init__ "n" 4 0.5%float "post_") mid
                (Some (Var "prev")) 5.
Proof.
  apply (process_block_sequence_splits
           "dr" "n" 4 0.5%float "post_" (Var "data") (Some (Var "prev")) 5).
  reflexivity.
Defined.

Lemma str_in_without_dropout_steps (c : ascii) (s : string) :
  Ascii.eqb c "d" = false ->
  str_in c (without_dropout_steps s) = str_in c s.
Proof.
  intros Hc. induction s as [| x rest IH];
    cbn [without_dropout_steps str_in]; [reflexivity |].
  destruct (Ascii.eqb x "d") eqn:Ex.
  - apply Ascii.eqb_eq in Ex. subst x. rewrite Hc, IH. reflexivity.
  - cbn [str_in]. rewrite IH. reflexivity.
Qed.

Lemma for_steps_without_dropout_steps (self : PB.t) (prev : option Symbol)
    (length : Z) (steps : string) :
  PrimFloat.ltb 0 (PB.dropout self) = false ->
  forall data,
    PB.for_steps self prev length steps data
    = PB.for_steps self prev length (without_dropout_steps steps) data.
Proof.
  intros Hrate. induction steps as [| x rest IH];
    cbn [PB.for_steps without_dropout_steps]; intros data; [reflexivity |].
  destruct (Ascii.eqb x "d") eqn:Ex.
  - apply Ascii.eqb_eq in Ex. subst x.
    unfold PB.step_body. cbn [Ascii.eqb Bool.eqb].
    rewrite Hrate. cbn [Py.bind]. apply IH.
  - cbn [PB.for_steps].
    destruct (PB.step_body self prev length x data); cbn [Py.bind];
      [apply IH | reflexivity].
Qed.

(** X6: when the dropout rate is not above 0, the [d] steps of a sequence
    do nothing: the block gives the result, value or error, of the block
    for the sequence with its [d] steps deleted. *)
Theorem process_block_dropout_steps_vanish
    (sequence : string) (num_hidden : Z) (rate : float) (prefix : string)
    (data : Symbol) (prev : option Symbol) (length : Z) :
  PrimFloat.ltb 0 rate = false ->
  PB.__call__ (PB.__init__ sequence num_hidden rate prefix) data prev length
  = PB.__call__ (PB.__init__ (without_dropout_steps sequence)
                             num_hidden rate prefix) data prev length.
Proof.
  intros Hrate. rewrite !process_block_call_cases.
  rewrite (str_in_without_dropout_steps "r" sequence eq_refl).
  destruct sequence as [| x rest]; [reflexivity |]. cbn [str_not].
  destruct (is_None prev && str_in "r" (String x rest)) eqn:Hchk.
  - apply andb_true_iff in Hchk. destruct Hchk as [_ Hin].
    rewrite <- (str_in_without_dropout_steps "r" _ eq_refl) in Hin.
    rewrite (str_in_nonempty _ _ Hin). reflexivity.
  - rewrite for_steps_without_dropout_steps by exact Hrate.
    rewrite (for_steps_other_sequence (String x rest)
               (without_dropout_steps (String x rest))).
    + destruct (without_dropout_steps (String x rest)); reflexivity.
    + intros E. split; [| exact E].
      rewrite <- (str_in_without_dropout_steps "n" _ eq_refl). exact E.
Qed.

Lemma process_block_dropout_steps_vanish_witness :
  PB.__call__ (PB.__init__ "dnrd" 4 0%float "post_") (Var "data")
              (Some (Var "prev")) 5
  = PB.__call__ (PB.__init__ "nr" 4 0%float "post_") (Var "data")
                (Some (Var "prev")) 5.
Proof.
  apply (process_block_dropout_steps_vanish
           "dnrd" 4 0%float "post_" (Var "data") (Some (Var "prev")) 5).
  reflexivity.
Defined.

(** ** Shapes the [n] step and the feed-forward layer do not check *)

(** X7: the [n] step merges batch and positions and asks for [num_hidden]
    features: on a tensor whose feature size is another one, the call still
    returns a graph, but that graph has no shape. *)
Theorem normalize_step_rejects_feature_mismatch
    (env : string -> option Shape) (num_hidden : Z) (dropout : float)
    (prefix : string) (b l h : Z) (data : Symbol) (prev : option Symbol)
    (length : Z) :
  0 < b -> 0 < l -> 0 < num_hidden -> h <> num_hidden ->
  infer_shape env data = Some [b; l; h] ->
  exists out,
    PB.__call__ (PB.__init__ "n" num_hidden dropout prefix) data prev length
    = Ok out
    /\ infer_shape env out = None.
Proof.
  intros Hb Hl Hh Hneq Hdata.
  rewrite process_block_call_cases. cbn [str_not str_in Ascii.eqb Bool.eqb orb].
  rewrite andb_false_r.
  eexists. split; [reflexivity |].
  assert (Hflat : infer_reshape_shape [b; l; h] [-3; num_hidden] = None).
  { unfold infer_reshape_shape.
    rewrite reshape_walk_merge, reshape_walk_dim by exact Hh.
    cbn [reshape_walk option_map count_inferred filter List.length Nat.ltb
         Nat.leb List.map size_of fold_right].
    destruct (Z.eqb_spec (b * l * (num_hidden * 1)) (b * (l * (h * 1))))
      as [E | _]; [| reflexivity].
    exfalso. apply Hneq. nia. }
  cbn [infer_shape PB.num_hidden PB.__init__]. rewrite Hdata, Hflat.
  reflexivity.
Qed.

Lemma normalize_step_rejects_feature_mismatch_witness :
  exists out,
    PB.__call__ (PB.__init__ "n" 8 0.5%float "pre_") (Var "data") None 5
    = Ok out
    /\ infer_shape example_env out = None.
Proof.
  apply (normalize_step_rejects_feature_mismatch
           example_env 8 0.5%float "pre_" 2 5 4 (Var "data") None 5);
    try lia; reflexivity.
Defined.

(** X8: the [n] step restores the shape from the [length] it is given, not
    from its input: on a tensor of [b] batches of [l] positions, a
    [length] that divides [b * l] yields [(b * l / length, length,
    num_hidden)], and a [length] that does not divide it yields a graph
    with no shape. *)
Theorem normalize_step_regroups_by_length
    (env : string -> option Shape) (num_hidden : Z) (dropout : float)
    (prefix : string) (b l : Z) (data : Symbol) (prev : option Symbol)
    (length : Z) :
  0 < b -> 0 < l -> 0 < length -> 0 < num_hidden ->
  infer_shape env data = Some [b; l; num_hidden] ->
  exists out,
    PB.__call__ (PB.__init__ "n" num_hidden dropout prefix) data prev length
    = Ok out
    /\ infer_shape env out
       = if (b * l) mod length =? 0
         then Some [b * l / length; length; num_hidden]
         else None.
Proof.
  intros Hb Hl Hlen Hh Hdata.
  rewrite process_block_call_cases. cbn [str_not str_in Ascii.eqb Bool.eqb orb].
  rewrite andb_false_r.
  eexists. split; [reflexivity |].
  cbn [infer_shape PB.num_hidden PB.__init__]. rewrite Hdata.
  rewrite reshape_flatten_keep by exact Hh. cbn [layers.normalize_shape].
  assert (Hq : (b * l) ÷ length = b * l / length)
    by (apply Z.quot_div_nonneg; nia).
  destruct (Z.eqb_spec ((b * l) mod length) 0) as [Hmod | Hmod].
  - assert (E : b * l = (b * l / length) * length).
    { rewrite (Z.mul_comm (b * l / length) length).
      apply Z.div_exact; [lia | exact Hmod]. }
    rewrite E at 1.
    apply reshape_split_restore; assumption.
  - unfold infer_reshape_shape.
    rewrite reshape_walk_split_left by lia. rewrite Hq.
    destruct (Z.eqb_spec (b * l / length * length) (b * l)) as [E | _];
      [| reflexivity].
    exfalso. apply Hmod. rewrite <- E. apply Z.mod_mul. lia.
Qed.

Lemma normalize_step_regroups_by_length_witness :
  exists out,
    PB.__call__ (PB.__init__ "n" 4 0.5%float "pre_") (Var "source") None 2
    = Ok out
    /\ infer_shape example_env out = Some [7; 2; 4].
Proof.
  apply (normalize_step_regroups_by_length
           example_env 4 0.5%float "pre_" 2 7 (Var "source") None 2);
    try lia; reflexivity.
Defined.

(** X9: the feature size of the feed-forward output is [num_model]
    whatever the feature size of its input: the two projections take their
    input size from the data. *)
Theorem feed_forward_output_feature_size
    (env : string -> option Shape) (self : FF.t) (b length m : Z)
    (x : Symbol) :
  0 < b -> 0 < length -> 0 < FF.num_model self ->
  infer_shape env x = Some [b; length; m] ->
  infer_shape env (FF.__call__ self x length)
  = Some [b; length; FF.num_model self].
Proof.
  intros Hb Hl Hm Hx. unfold FF.__call__.
  destruct (PrimFloat.ltb 0 (FF.dropout self)); cbn [infer_shape];
    rewrite Hx, reshape_flatten_infer by assumption; cbv beta iota;
    apply reshape_restore_infer; assumption.
Qed.

Lemma feed_forward_output_feature_size_witness :
  infer_shape example_env
    (FF.__call__ (FF.__init__ 16 32 0%float "ff_") (Var "data") 5)
  = Some [2; 5; 32].
Proof.
  apply (feed_forward_output_feature_size
           example_env (FF.__init__ 16 32 0%float "ff_") 2 5 4 (Var "data"));
    try lia; reflexivity.
Defined.

(** ** Encoder and decoder blocks: when the call returns *)

(** What the result of a process block says about its sequence. *)
Lemma process_block_call_result (sequence : string) (num_hidden : Z)
    (dropout : float) (prefix : string) (data : Symbol)
    (prev : option Symbol) (length : Z) :
  match PB.__call__ (PB.__init__ sequence num_hidden dropout prefix)
                    data prev length with
  | Ok _ => all_known sequence && negb (is_None prev && str_in "r" sequence)
            = true
  | Raise _ => all_known sequence && negb (is_None prev && str_in "r" sequence)
               = false
  end.
Proof.
  rewrite process_block_call_cases.
  destruct (all_known sequence) eqn:Hall.
  - destruct (str_not sequence) eqn:Hnot.
    { destruct sequence; [| discriminate Hnot].
      cbn [str_in]. rewrite andb_false_r. reflexivity. }
    destruct (is_None prev && str_in "r" sequence); [reflexivity |].
    destruct (for_steps_known
                (PB.__init__ sequence num_hidden dropout prefix)
                prev length sequence Hall
                (init_layer_norm sequence num_hidden dropout prefix) data)
      as [out Hout].
    rewrite Hout. reflexivity.
  - rewrite (all_known_nonempty _ Hall).
    destruct (not_all_known_first_unknown sequence Hall) as [c Hu].
    rewrite (for_steps_unknown
               (PB.__init__ sequence num_hidden dropout prefix)
               prev length sequence c
               (init_layer_norm sequence num_hidden dropout prefix) Hu).
    destruct (is_None prev && str_in "r" sequence); reflexivity.
Qed.

Lemma pre_block_result (sequence : string) (num_hidden : Z)
    (dropout : float) (prefix : string) (data : Symbol) (length : Z) :
  match PB.__call__ (PB.__init__ sequence num_hidden dropout prefix)
                    data None length with
  | Ok _ => valid_preprocess sequence = true
  | Raise _ => valid_preprocess sequence = false
  end.
Proof.
  exact (process_block_call_result sequence num_hidden dropout prefix
           data None length).
Qed.

Lemma post_block_result (sequence : string) (num_hidden : Z)
    (dropout : float) (prefix : string) (data prev : Symbol) (length : Z) :
  match PB.__call__ (PB.__init__ sequence num_hidden dropout prefix)
                    data (Some prev) length with
  | Ok _ => valid_postprocess sequence = true
  | Raise _ => valid_postprocess sequence = false
  end.
Proof.
  pose proof (process_block_call_result sequence num_hidden dropout prefix
                data (Some prev) length) as H.
  cbn [is_None andb negb] in H. rewrite andb_true_r in H. exact H.
Qed.

(** Decide one stage of a block from the validity of its sequence. *)
Ltac decide_stage lemma :=
  match goal with
  | |- context [PB.__call__ (PB.__init__ ?s ?n ?d ?p) ?x None ?l] =>
      let H := fresh "Hstage" in
      pose proof (pre_block_result s n d p x l) as H;
      destruct (PB.__call__ (PB.__init__ s n d p) x None l);
      cbn [Py.bind]
  | |- context [PB.__call__ (PB.__init__ ?s ?n ?d ?p) ?x (Some ?y) ?l] =>
      let H := fresh "Hstage" in
      pose proof (post_block_result s n d p x y l) as H;
      destruct (PB.__call__ (PB.__init__ s n d p) x (Some y) l);
      cbn [Py.bind]
  end.

Ltac settle_stages :=
  repeat (decide_stage idtac;
          [| solve [split; [intros [? ?]; discriminate
                           | intros E; apply andb_true_iff in E;
                             destruct E; congruence]]]).

(** X10: for hyperparameters and a length in range, and attention layers
    that return, an encoder block built from a configuration returns a
    value exactly when the preprocess sequence has known steps and no [r],
    and the postprocess sequence has known steps; the input plays no
    part. *)
Theorem encoder_block_returns_iff_valid
    (config : TransformerConfig) (prefix : string)
    (data data_length : Symbol) (length : Z) :
  config_in_range config = true ->
  dim_in_range length = true ->
  (exists out,
     Enc.__call__ (Enc.__init__ config prefix) data data_length length
     = Ok out)
  <-> valid_preprocess (preprocess_sequence config)
      && valid_postprocess (postprocess_sequence config) = true.
Proof.
  intros _ _.
  unfold Enc.__call__, Enc.__init__;
    cbn [Enc.pre_self_attention Enc.self_attention Enc.post_self_attention
         Enc.pre_ff Enc.ff Enc.post_ff].
  settle_stages.
  split; [intros _; apply andb_true_iff; split; assumption |].
  intros _. eexists. reflexivity.
Qed.

Lemma encoder_block_returns_iff_valid_witness :
  exists out,
    Enc.__call__ (Enc.__init__ example_config "enc_") (Var "data")
                 (Var "data_length") 5 = Ok out.
Proof.
  apply (proj2 (encoder_block_returns_iff_valid
                  example_config "enc_" (Var "data") (Var "data_length") 5
                  eq_refl eq_refl)).
  reflexivity.
Defined.

(** X11: for hyperparameters and lengths in range, and attention layers
    that return, a decoder block built from a configuration returns a value
    under the same condition on its two sequences, whatever the target, the
    source, the bias and the length tensors are. *)
Theorem decoder_block_returns_iff_valid
    (config : TransformerConfig) (prefix : string)
    (target target_lengths : Symbol) (target_max_length : Z)
    (target_bias source source_lengths : Symbol) (source_max_length : Z) :
  config_in_range config = true ->
  dim_in_range target_max_length = true ->
  dim_in_range source_max_length = true ->
  (exists out,
     Dec.__call__ (Dec.__init__ config prefix) target target_lengths
                  target_max_length target_bias source source_lengths
                  source_max_length = Ok out)
  <-> valid_preprocess (preprocess_sequence config)
      && valid_postprocess (postprocess_sequence config) = true.
Proof.
  intros _ _ _.
  unfold Dec.__call__, Dec.__init__;
    cbn [Dec.pre_self_attention Dec.self_attention Dec.post_self_attention
         Dec.pre_enc_attention Dec.enc_attention Dec.post_enc_attention
         Dec.pre_ff Dec.ff Dec.post_ff].
  settle_stages.
  split; [intros _; apply andb_true_iff; split; assumption |].
  intros _. eexists. reflexivity.
Qed.

Lemma decoder_block_returns_iff_valid_witness :
  exists out,
    Dec.__call__ (Dec.__init__ example_config "dec_") (Var "data")
                 (Var "target_lengths") 5 (Var "target_bias")
                 (Var "source") (Var "source_lengths") 7 = Ok out.
Proof.
  apply (proj2 (decoder_block_returns_iff_valid
                  example_config "dec_" (Var "data") (Var "target_lengths") 5
                  (Var "target_bias") (Var "source") (Var "source_lengths") 7
                  eq_refl eq_refl eq_refl)).
  reflexivity.
Defined.

(** X12: a preprocess sequence with an [r] step makes every call of the
    encoder block and of the decoder block raise the residual assertion:
    the blocks call their preprocess steps with no previous value. *)
Theorem residual_in_preprocess_always_raises
    (config : TransformerConfig) (prefix : string)
    (data data_length : Symbol) (length : Z)
    (target_bias source source_lengths : Symbol) (source_max_length : Z) :
  str_in "r" (preprocess_sequence config) = true ->
  Enc.__call__ (Enc.__init__ config prefix) data data_length length
  = Raise (AssertionError residual_msg)
  /\ Dec.__call__ (Dec.__init__ config prefix) data data_length length
                  target_bias source source_lengths source_max_length
     = Raise (AssertionError residual_msg).
Proof.
  intros Hr.
  unfold Enc.__call__, Dec.__call__, Enc.__init__, Dec.__init__;
    cbn [Enc.pre_self_attention Dec.pre_self_attention].
  rewrite !process_block_call_cases.
  rewrite (str_in_nonempty _ _ Hr), Hr. split; reflexivity.
Qed.

Lemma residual_in_preprocess_always_raises_witness :
  Enc.__call__ (Enc.__init__ residual_first_config "enc_") (Var "data")
               (Var "data_length") 5
  = Raise (AssertionError residual_msg)
  /\ Dec.__call__ (Dec.__init__ residual_first_config "dec_") (Var "data")
                  (Var "data_length") 5 (Var "bias") (Var "source")
                  (Var "source_lengths") 7
     = Raise (AssertionError residual_msg).
Proof.
  split.
  - apply (residual_in_preprocess_always_raises
             residual_first_config "enc_" (Var "data") (Var "data_length") 5
             (Var "bias") (Var "source") (Var "source_lengths") 7).
    reflexivity.
  - apply (residual_in_preprocess_always_raises
             residual_first_config "dec_" (Var "data") (Var "data_length") 5
             (Var "bias") (Var "source") (Var "source_lengths") 7).
    reflexivity.
Defined.

(** ** Encoder block: no causal bias *)

Lemma process_block_call_bias_free (self : PB.t) (data : Symbol)
    (prev : option Symbol) (length : Z) (out : Symbol) :
  drop data = data ->
  option_map drop prev = prev ->
  PB.__call__ self data prev length = Ok out ->
  drop out = out.
Proof.
  intros Hd Hp Hcall.
  pose proof (process_block_call_drop self data prev length) as H.
  rewrite Hd, Hp, Hcall in H. cbn [Py.map Py.bind] in H. congruence.
Qed.

Lemma feed_forward_init_bias_free (num_hidden num_model : Z) (rate : float)
    (prefix : string) (x : Symbol) (length : Z) :
  drop x = x ->
  drop (FF.__call__ (FF.__init__ num_hidden num_model rate prefix) x length)
  = FF.__call__ (FF.__init__ num_hidden num_model rate prefix) x length.
Proof.
  intros Hx. unfold FF.__call__, FF.__init__.
  cbn [FF.dropout FF.num_hidden FF.num_model FF.w_i2h FF.b_i2h FF.w_h2o
       FF.b_h2o].
  destruct (PrimFloat.ltb 0 rate); cbn [drop]; rewrite Hx; reflexivity.
Qed.

(** X13: the encoder block applies no attention bias: when its input and
    lengths carry no self-attention bias, neither does its output. *)
Theorem encoder_block_adds_no_bias
    (config : TransformerConfig) (prefix : string)
    (data data_length : Symbol) (length : Z) (out : Symbol) :
  drop_self_attention_bias data = data ->
  drop_self_attention_bias data_length = data_length ->
  Enc.__call__ (Enc.__init__ config prefix) data data_length length = Ok out ->
  drop_self_attention_bias out = out.
Proof.
  intros Hd Hl. unfold Enc.__call__, Enc.__init__;
    cbn [Enc.pre_self_attention Enc.self_attention Enc.post_self_attention
         Enc.pre_ff Enc.ff Enc.post_ff].
  destruct (PB.__call__ _ data None length) as [normed |] eqn:H1;
    cbn [Py.bind]; [| discriminate].
  apply process_block_call_bias_free in H1; [| exact Hd | reflexivity].
  destruct (PB.__call__ _ _ (Some data) length) as [data' |] eqn:H2;
    cbn [Py.bind]; [| discriminate].
  apply process_block_call_bias_free in H2;
    [| cbn [drop]; rewrite H1, Hl; reflexivity
     | cbn [option_map]; rewrite Hd; reflexivity].
  destruct (PB.__call__ _ data' None length) as [normed2 |] eqn:H3;
    cbn [Py.bind]; [| discriminate].
  apply process_block_call_bias_free in H3; [| exact H2 | reflexivity].
  destruct (PB.__call__ _ _ (Some data') length) as [final |] eqn:H4;
    cbn [Py.bind]; [| discriminate].
  apply process_block_call_bias_free in H4;
    [| apply feed_forward_init_bias_free; exact H3
     | cbn [option_map]; rewrite H2; reflexivity].
  intros E. injection E as <-. exact H4.
Qed.

Lemma encoder_block_adds_no_bias_witness :
  exists out,
    Enc.__call__ (Enc.__init__ example_config "enc_") (Var "data")
                 (Var "data_length") 5 = Ok out
    /\ drop_self_attention_bias out = out.
Proof.
  eexists. split; [reflexivity |].
  apply (encoder_block_adds_no_bias
           example_config "enc_" (Var "data") (Var "data_length") 5);
    reflexivity.
Defined.

(** ** Decoder block: where the source goes *)

Lemma step_body_drop_memory (self : PB.t) (prev : option Symbol) (length : Z)
    (c : ascii) (data : Symbol) :
  Py.map drop_memory (PB.step_body self prev length c data)
  = PB.step_body self (option_map drop_memory prev) length c
                 (drop_memory data).
Proof.
  unfold PB.step_body.
  destruct (Ascii.eqb c "r"); [reflexivity |].
  destruct (Ascii.eqb c "n").
  { unfold PB._reshape_and_normalize.
    destruct (PB.layer_norm self); reflexivity. }
  destruct (Ascii.eqb c "d"); [| reflexivity].
  destruct (PrimFloat.ltb 0 (PB.dropout self)); reflexivity.
Qed.

Lemma for_steps_drop_memory (self : PB.t) (prev : option Symbol) (length : Z)
    (steps : string) :
  forall data,
    Py.map drop_memory (PB.for_steps self prev length steps data)
    = PB.for_steps self (option_map drop_memory prev) length steps
                   (drop_memory data).
Proof.
  induction steps as [| x rest IH]; cbn [PB.for_steps]; intros data;
    [reflexivity |].
  rewrite <- step_body_drop_memory.
  destruct (PB.step_body self prev length x data) as [mid | e];
    [| reflexivity].
  cbn [Py.map Py.bind]. apply IH.
Qed.

Lemma process_block_call_drop_memory (self : PB.t) (data : Symbol)
    (prev : option Symbol) (length : Z) :
  Py.map drop_memory (PB.__call__ self data prev length)
  = PB.__call__ self (drop_memory data) (option_map drop_memory prev) length.
Proof.
  unfold PB.__call__.
  destruct (str_not (PB.sequence self)); [reflexivity |].
  destruct prev as [p |]; cbn [option_map Py.bind].
  - apply for_steps_drop_memory.
  - destruct (assert (negb (str_in "r" (PB.sequence self))) _) as [[] | e];
      cbn [Py.bind]; [apply (for_steps_drop_memory self None) | reflexivity].
Qed.

Lemma process_block_call_drop_memory_eq (self : PB.t) (d1 d2 : Symbol)
    (p1 p2 : option Symbol) (length : Z) :
  drop_memory d1 = drop_memory d2 ->
  option_map drop_memory p1 = option_map drop_memory p2 ->
  Py.map drop_memory (PB.__call__ self d1 p1 length)
  = Py.map drop_memory (PB.__call__ self d2 p2 length).
Proof.
  intros Hd Hp. rewrite !process_block_call_drop_memory, Hd, Hp. reflexivity.
Qed.

Lemma feed_forward_call_drop_memory_eq (self : FF.t) (x1 x2 : Symbol)
    (length : Z) :
  drop_memory x1 = drop_memory x2 ->
  drop_memory (FF.__call__ self x1 length)
  = drop_memory (FF.__call__ self x2 length).
Proof.
  intros Hx. unfold FF.__call__.
  destruct (PrimFloat.ltb 0 (FF.dropout self)); cbn [drop_memory];
    rewrite Hx; reflexivity.
Qed.

Lemma bind_drop_memory_eq (m1 m2 : result Symbol)
    (k1 k2 : Symbol -> result Symbol) :
  Py.map drop_memory m1 = Py.map drop_memory m2 ->
  (forall a1 a2, drop_memory a1 = drop_memory a2 ->
                 Py.map drop_memory (k1 a1) = Py.map drop_memory (k2 a2)) ->
  Py.map drop_memory (Py.bind m1 k1) = Py.map drop_memory (Py.bind m2 k2).
Proof.
  intros Hm Hk. destruct m1 as [a1 | e1], m2 as [a2 | e2];
    cbn [Py.map Py.bind] in *; try discriminate.
  - apply Hk. congruence.
  - exact Hm.
Qed.

(** X14: the decoder block passes the source, its lengths and its maximum
    length to the encoder-attention call only: for two sources the results,
    values or errors, are equal once the memory arguments of
    encoder-attention calls are put aside. *)
Theorem decoder_source_only_in_encoder_attention
    (self : Dec.t) (target target_lengths : Symbol) (target_max_length : Z)
    (target_bias : Symbol)
    (source1 source_lengths1 : Symbol) (source_max_length1 : Z)
    (source2 source_lengths2 : Symbol) (source_max_length2 : Z) :
  Py.map drop_memory
    (Dec.__call__ self target target_lengths target_max_length target_bias
                  source1 source_lengths1 source_max_length1)
  = Py.map drop_memory
      (Dec.__call__ self target target_lengths target_max_length target_bias
                    source2 source_lengths2 source_max_length2).
Proof.
  unfold Dec.__call__.
  apply bind_drop_memory_eq; [reflexivity | intros pre1 pre2 Hpre].
  apply bind_drop_memory_eq.
  { apply process_block_call_drop_memory_eq; [| reflexivity].
    cbn [drop_memory]. rewrite Hpre. reflexivity. }
  intros t1 t2 Ht.
  apply bind_drop_memory_eq.
  { apply process_block_call_drop_memory_eq; [exact Ht | reflexivity]. }
  intros q1 q2 Hq.
  apply bind_drop_memory_eq.
  { apply process_block_call_drop_memory_eq.
    - cbn [drop_memory]. rewrite Hq. reflexivity.
    - cbn [option_map]. rewrite Ht. reflexivity. }
  intros u1 u2 Hu.
  apply bind_drop_memory_eq.
  { apply process_block_call_drop_memory_eq; [exact Hu | reflexivity]. }
  intros r1 r2 Hr.
  apply bind_drop_memory_eq.
  { apply process_block_call_drop_memory_eq.
    - apply feed_forward_call_drop_memory_eq. exact Hr.
    - cbn [option_map]. rewrite Hu. reflexivity. }
  intros v1 v2 Hv. cbn [Py.map Py.bind]. rewrite Hv. reflexivity.
Qed.

(** ** The autoregressive bias: lengths *)

(** X15: the bias is built for every length from 0 on, with shape
    [(1, length, length)] and [length * length] elements (none for length
    0); a negative length raises numpy's error for negative dimensions. *)
Theorem get_bias_result_by_length (length : Z) :
  match AutoRegressiveBias.get_bias length with
  | Ok bias =>
      0 <= length
      /\ np.shape bias = [1; length; length]
      /\ Z.of_nat (List.length (np.data bias)) = length * length
  | Raise e =>
      length < 0 /\ e = ValueError "negative dimensions are not allowed"
  end.
Proof.
  destruct (Z.leb_spec 0 length) as [Hl | Hl].
  - rewrite get_bias_closed_form by exact Hl.
    split; [exact Hl |]. split; [reflexivity |].
    cbn [np.data]. rewrite !length_map, length_mapi_from, repeat_length.
    apply Z2Nat.id. nia.
  - unfold AutoRegressiveBias.get_bias, np.ones. cbn [forallb].
    destruct (Z.leb_spec 0 length); [lia |].
    cbn [andb Py.bind]. split; [exact Hl | reflexivity].
Qed.

(** X16: an entry of the bias does not depend on the length it is built
    for: for [k <= length], the bias for [k] is the upper-left corner of the
    bias for [length]. *)
Theorem get_bias_corner (k length i j : Z) :
  0 <= i < k -> 0 <= j < k -> k <= length ->
  exists small large e,
    AutoRegressiveBias.get_bias k = Ok small
    /\ AutoRegressiveBias.get_bias length = Ok large
    /\ np.item small [0; i; j] = Some e
    /\ np.item large [0; i; j] = Some e.
Proof.
  intros Hi Hj Hk.
  assert (Hsmall := get_bias_closed_form k ltac:(lia)).
  assert (Hlarge := get_bias_closed_form length ltac:(lia)).
  eexists. eexists. exists (AutoRegressiveBias.to_float32 (bias_entry i j)).
  split; [exact Hsmall |]. split; [exact Hlarge |].
  split.
  - apply (get_bias_item k _ i j Hsmall); assumption.
  - apply (get_bias_item length _ i j Hlarge); lia.
Qed.

Lemma get_bias_corner_witness :
  exists small large e,
    AutoRegressiveBias.get_bias 2 = Ok small
    /\ AutoRegressiveBias.get_bias 4 = Ok large
    /\ np.item small [0; 0; 1] = Some e
    /\ np.item large [0; 0; 1] = Some e.
Proof.
  apply (get_bias_corner 2 4 0 1); lia.
Defined.

(** ** Dropout switched off *)

Lemma step_body_no_dropout (self : PB.t) (prev : option Symbol) (length : Z)
    (c : ascii) (data out : Symbol) :
  PrimFloat.ltb 0 (PB.dropout self) = false ->
  has_dropout data = false ->
  prev_has_dropout prev = false ->
  PB.step_body self prev length c data = Ok out ->
  has_dropout out = false.
Proof.
  intros Hrate Hd Hp. unfold PB.step_body, PB._reshape_and_normalize.
  rewrite Hrate.
  destruct (Ascii.eqb c "r").
  { intros E. injection E as <-. cbn [has_dropout].
    rewrite Hd. destruct prev; exact Hp. }
  destruct (Ascii.eqb c "n").
  { destruct (PB.layer_norm self); cbn [Py.bind]; [| discriminate].
    intros E. injection E as <-. exact Hd. }
  destruct (Ascii.eqb c "d"); [| discriminate].
  intros E. injection E as <-. exact Hd.
Qed.

Lemma for_steps_no_dropout (self : PB.t) (prev : option Symbol) (length : Z)
    (steps : string) :
  PrimFloat.ltb 0 (PB.dropout self) = false ->
  prev_has_dropout prev = false ->
  forall data out,
    has_dropout data = false ->
    PB.for_steps self prev length steps data = Ok out ->
    has_dropout out = false.
Proof.
  intros Hrate Hp. induction steps as [| x rest IH]; cbn [PB.for_steps];
    intros data out Hd.
  - intros E. injection E as <-. exact Hd.
  - destruct (PB.step_body self prev length x data) as [mid |] eqn:Hstep;
      cbn [Py.bind]; [| discriminate].
    apply IH.
    apply (step_body_no_dropout self prev length x data mid); assumption.
Qed.

Lemma process_block_call_no_dropout (self : PB.t) (data : Symbol)
    (prev : option Symbol) (length : Z) (out : Symbol) :
  PrimFloat.ltb 0 (PB.dropout self) = false ->
  has_dropout data = false ->
  prev_has_dropout prev = false ->
  PB.__call__ self data prev length = Ok out ->
  has_dropout out = false.
Proof.
  intros Hrate Hd Hp. unfold PB.__call__.
  destruct (str_not (PB.sequence self)).
  { intros E. injection E as <-. exact Hd. }
  destruct (match prev with
            | Some _ => Ok tt
            | None => assert (negb (str_in "r" (PB.sequence self))) _
            end) as [[] |]; cbn [Py.bind]; [| discriminate].
  apply for_steps_no_dropout; assumption.
Qed.

Lemma feed_forward_init_no_dropout (num_hidden num_model : Z) (rate : float)
    (prefix : string) (x : Symbol) (length : Z) :
  PrimFloat.ltb 0 rate = false ->
  has_dropout x = false ->
  has_dropout
    (FF.__call__ (FF.__init__ num_hidden num_model rate prefix) x length)
  = false.
Proof.
  intros Hrate Hx. unfold FF.__call__, FF.__init__.
  cbn [FF.dropout FF.num_hidden FF.num_model FF.w_i2h FF.b_i2h FF.w_h2o
       FF.b_h2o].
  rewrite Hrate. cbn [has_dropout]. rewrite Hx. reflexivity.
Qed.

(** X17: with the pre/post and ReLU dropout rates of the configuration not
    above 0, the encoder block builds no [Dropout] operator: a result built
    from an input and lengths without one has none. *)
Theorem encoder_block_without_dropout
    (config : TransformerConfig) (prefix : string)
    (data data_length : Symbol) (length : Z) (out : Symbol) :
  PrimFloat.ltb 0 (dropout_prepost config) = false ->
  PrimFloat.ltb 0 (dropout_relu config) = false ->
  has_dropout data = false ->
  has_dropout data_length = false ->
  Enc.__call__ (Enc.__init__ config prefix) data data_length length = Ok out ->
  has_dropout out = false.
Proof.
  intros Hpp Hrelu Hd Hl. unfold Enc.__call__, Enc.__init__;
    cbn [Enc.pre_self_attention Enc.self_attention Enc.post_self_attention
         Enc.pre_ff Enc.ff Enc.post_ff].
  destruct (PB.__call__ _ data None length) as [normed |] eqn:H1;
    cbn [Py.bind]; [| discriminate].
  apply process_block_call_no_dropout in H1;
    [| exact Hpp | exact Hd | reflexivity].
  destruct (PB.__call__ _ _ (Some data) length) as [data' |] eqn:H2;
    cbn [Py.bind]; [| discriminate].
  apply process_block_call_no_dropout in H2;
    [| exact Hpp
     | cbn [has_dropout]; rewrite H1, Hl; reflexivity
     | exact Hd].
  destruct (PB.__call__ _ data' None length) as [normed2 |] eqn:H3;
    cbn [Py.bind]; [| discriminate].
  apply process_block_call_no_dropout in H3;
    [| exact Hpp | exact H2 | reflexivity].
  destruct (PB.__call__ _ _ (Some data') length) as [final |] eqn:H4;
    cbn [Py.bind]; [| discriminate].
  apply process_block_call_no_dropout in H4;
    [| exact Hpp
     | apply feed_forward_init_no_dropout; assumption
     | exact H2].
  intros E. injection E as <-. exact H4.
Qed.

Lemma encoder_block_without_dropout_witness :
  exists out,
    Enc.__call__ (Enc.__init__ inference_config "enc_") (Var "data")
                 (Var "data_length") 5 = Ok out
    /\ has_dropout out = false.
Proof.
  eexists. split; [reflexivity |].
  apply (encoder_block_without_dropout
           inference_config "enc_" (Var "data") (Var "data_length") 5);
    reflexivity.
Defined.

(** X18: likewise the decoder block builds no [Dropout] operator when the
    two rates are not above 0 and its target, lengths, bias and source have
    none. *)
Theorem decoder_block_without_dropout
    (config : TransformerConfig) (prefix : string)
    (target target_lengths : Symbol) (target_max_length : Z)
    (target_bias source source_lengths : Symbol) (source_max_length : Z)
    (out : Symbol) :
  PrimFloat.ltb 0 (dropout_prepost config) = false ->
  PrimFloat.ltb 0 (dropout_relu config) = false ->
  has_dropout target || has_dropout target_lengths || has_dropout target_bias
  || has_dropout source || has_dropout source_lengths = false ->
  Dec.__call__ (Dec.__init__ config prefix) target target_lengths
               target_max_length target_bias source source_lengths
               source_max_length = Ok out ->
  has_dropout out = false.
Proof.
  intros Hpp Hrelu Hin.
  repeat (apply orb_false_iff in Hin; destruct Hin as [Hin ?]).
  unfold Dec.__call__, Dec.__init__;
    cbn [Dec.pre_self_attention Dec.self_attention Dec.post_self_attention
         Dec.pre_enc_attention Dec.enc_attention Dec.post_enc_attention
         Dec.pre_ff Dec.ff Dec.post_ff].
  destruct (PB.__call__ _ target None target_max_length) as [normed |] eqn:S1;
    cbn [Py.bind]; [| discriminate].
  apply process_block_call_no_dropout in S1;
    [| exact Hpp | assumption | reflexivity].
  destruct (PB.__call__ _ _ (Some target) target_max_length)
    as [target1 |] eqn:S2; cbn [Py.bind]; [| discriminate].
  apply process_block_call_no_dropout in S2;
    [| exact Hpp
     | cbn [has_dropout];
       repeat (rewrite orb_false_iff; split); assumption
     | assumption].
  destruct (PB.__call__ _ target1 None target_max_length)
    as [normed2 |] eqn:S3; cbn [Py.bind]; [| discriminate].
  apply process_block_call_no_dropout in S3;
    [| exact Hpp | exact S2 | reflexivity].
  destruct (PB.__call__ _ _ (Some target1) target_max_length)
    as [target2 |] eqn:S4; cbn [Py.bind]; [| discriminate].
  apply process_block_call_no_dropout in S4;
    [| exact Hpp
     | cbn [has_dropout];
       repeat (rewrite orb_false_iff; split); assumption
     | exact S2].
  destruct (PB.__call__ _ target2 None target_max_length)
    as [normed3 |] eqn:S5; cbn [Py.bind]; [| discriminate].
  apply process_block_call_no_dropout in S5;
    [| exact Hpp | exact S4 | reflexivity].
  destruct (PB.__call__ _ _ (Some target2) target_max_length)
    as [final |] eqn:S6; cbn [Py.bind]; [| discriminate].
  apply process_block_call_no_dropout in S6;
    [| exact Hpp
     | apply feed_forward_init_no_dropout; assumption
     | exact S4].
  intros E. injection E as <-. exact S6.
Qed.

Lemma decoder_block_without_dropout_witness :
  exists out,
    Dec.__call__ (Dec.__init__ inference_config "dec_") (Var "data")
                 (Var "target_lengths") 5 (Var "target_bias")
                 (Var "source") (Var "source_lengths") 7 = Ok out
    /\ has_dropout out = false.
Proof.
  eexists. split; [reflexivity |].
  apply (decoder_block_without_dropout
           inference_config "dec_" (Var "data") (Var "target_lengths") 5
           (Var "target_bias") (Var "source") (Var "source_lengths") 7);
    reflexivity.
Defined.
